(** * export.py: resolution of the export arguments and the export routine

    A shallow embedding of [ExportArgs.__post_init__] and [export] of
    export.py, together with the parts of the Python standard library they
    call ([posixpath.dirname], [posixpath.splitext], [posixpath.join] and
    [pathlib.PurePosixPath]), transcribed from CPython's sources
    (Lib/posixpath.py, Lib/genericpath.py, Lib/pathlib.py, 3.8 to 3.11).

    Python strings are [string]; string indices, as in Python, are signed
    integers ([Z]), with [-1] for "not found" and negative slice bounds
    counted from the end.  The file system is what [os.stat] answers for
    each path name, success or the way it fails; the calls into timm,
    sparseml, torch and yaml are oracles of a section.
    Effects (probes of the file system, calls of the collaborators, raised
    exceptions) are threaded through a small trace-and-error monad. *)

From Stdlib Require Import ZArith List Bool Ascii String Lia.
Import ListNotations.

Local Open Scope string_scope.
Local Open Scope Z_scope.

(* ================================================================= *)
(** ** Built-in [str] operations *)

Module PyStr.

Definition len (s : string) : Z := Z.of_nat (String.length s).

(** Truth value of a string: the empty string is false. *)
Definition truthy (s : string) : bool := negb (s =? "")%string.

Fixpoint take (n : nat) (s : string) : string :=
  match n, s with
  | S k, String a s' => String a (take k s')
  | _, _ => ""
  end.

Fixpoint drop (n : nat) (s : string) : string :=
  match n, s with
  | S k, String _ s' => drop k s'
  | _, _ => s
  end.

(** A slice bound: negative bounds count from the end, and the result is
    clamped to [0 .. len s]. *)
Definition bound (s : string) (i : Z) : nat :=
  Z.to_nat (Z.min (len s) (Z.max 0 (if i <? 0 then i + len s else i))).

(** [s[i:]], [s[:j]] and [s[i:j]]. *)
Definition slice_from (s : string) (i : Z) : string := drop (bound s i) s.
Definition slice_to (s : string) (j : Z) : string := take (bound s j) s.
Definition slice (s : string) (i j : Z) : string :=
  take (bound s j - bound s i) (drop (bound s i) s).

(** [c in s] for a one-character [c]. *)
Fixpoint contains (s : string) (c : ascii) : bool :=
  match s with
  | "" => false
  | String a s' => (a =? c)%char || contains s' c
  end.

(** [s.rfind(c)] for a one-character [c]: the highest index of [c], or
    [-1]. *)
Fixpoint rfind (s : string) (c : ascii) : Z :=
  match s with
  | "" => -1
  | String a s' =>
      let r := rfind s' c in
      if 0 <=? r then r + 1 else if (a =? c)%char then 0 else -1
  end.

(** [s.lstrip(c)] and [s.rstrip(c)] for a one-character [c]. *)
Fixpoint lstrip (s : string) (c : ascii) : string :=
  match s with
  | "" => ""
  | String a s' => if (a =? c)%char then lstrip s' c else s
  end.

Fixpoint rstrip (s : string) (c : ascii) : string :=
  match s with
  | "" => ""
  | String a s' =>
      let r := rstrip s' c in
      if (r =? "")%string && (a =? c)%char then "" else String a r
  end.

Fixpoint startswith (s t : string) : bool :=
  match t, s with
  | "", _ => true
  | String b t', String a s' => (a =? b)%char && startswith s' t'
  | String _ _, "" => false
  end.

Fixpoint endswith (s t : string) : bool :=
  (s =? t)%string ||
  match s with
  | "" => false
  | String _ s' => endswith s' t
  end.

(** [s * n]. *)
Fixpoint repeat (s : string) (n : nat) : string :=
  match n with
  | O => ""
  | S k => s ++ repeat s k
  end.

(** [s.split(c)] for a one-character separator: never the empty list. *)
Fixpoint split (s : string) (c : ascii) : list string :=
  match s with
  | "" => [""]
  | String a s' =>
      if (a =? c)%char then "" :: split s' c
      else match split s' c with
           | [] => [String a ""]
           | w :: ws => String a w :: ws
           end
  end.

(** [sep.join(l)]. *)
Fixpoint join (sep : string) (l : list string) : string :=
  match l with
  | [] => ""
  | [x] => x
  | x :: xs => x ++ sep ++ join sep xs
  end.

End PyStr.

(* ================================================================= *)
(** ** Exceptions and the effect monad *)

(** The exceptions that can leave the script: the two raised by the code
    under study, an [OSError] of [os.stat] that [Path.exists] lets through
    (with its errno and file name; its subclasses, [PermissionError] and the
    like, are told apart by the errno), and whatever a collaborator
    raises. *)
Inductive exn : Type :=
| FileNotFoundError (msg : string)
| ValueError (msg : string)
| OSError (errno : Z) (filename : string)
| OtherError (kind msg : string).

Inductive result (A : Type) : Type :=
| Ok (a : A)
| Raise (e : exn).

Arguments Ok {A} a.
Arguments Raise {A} e.

(** What the script does to the outside world, in order. *)
Inductive event : Type :=
| Exists (path : string)              (* Path.exists(), an os.stat *)
| OpenYaml (path : string)            (* open + yaml.safe_load + Namespace *)
| CreateModel                         (* timm.models.create_model *)
| FromYaml (recipe : option string)   (* ScheduledModifierManager.from_yaml *)
| Apply                               (* manager.apply(model) *)
| TorchLoad (path : string)           (* torch.load *)
| LoadStateDict                       (* model.load_state_dict *)
| Randn (shape : list Z)              (* torch.randn *)
| ExportOnnx (shape : list Z) (file_path : string) (convert_qat : bool).

(** A computation extends the trace of events and returns or raises. *)
Definition M (A : Type) : Type := list event -> list event * result A.

Definition ret {A} (a : A) : M A := fun tr => (tr, Ok a).

Definition raise {A} (e : exn) : M A := fun tr => (tr, Raise e).

Definition bind {A B} (m : M A) (k : A -> M B) : M B :=
  fun tr =>
    match m tr with
    | (tr', Ok a) => k a tr'
    | (tr', Raise e) => (tr', Raise e)
    end.

(** An outside call: recorded, then answered by the world. *)
Definition call {A} (e : event) (answer : result A) : M A :=
  fun tr => ((tr ++ [e])%list, answer).

(** A pure computation that may raise. *)
Definition lift {A} (r : result A) : M A := fun tr => (tr, r).

Definition run {A} (m : M A) : list event * result A := m [].

Declare Scope py_scope.
Delimit Scope py_scope with py.
Notation "x <- m ;; k" := (bind m (fun x => k))
  (at level 100, m at next level, right associativity) : py_scope.

(* ================================================================= *)
(** ** Lib/posixpath.py and Lib/genericpath.py *)

Module posixpath.
Import PyStr.

Definition sep : ascii := "/"%char.
Definition extsep : ascii := "."%char.

(** [dirname(p)]:
<<
    i = p.rfind(sep) + 1
    head = p[:i]
    if head and head != sep*len(head):
        head = head.rstrip(sep)
    return head
>> *)
Definition dirname (p : string) : string :=
  let i := rfind p sep + 1 in
  let head := slice_to p i in
  if truthy head
     && negb (head =? repeat (String sep "") (String.length head))%string
  then rstrip head sep
  else head.

(** [basename(p)]: [i = p.rfind(sep) + 1; return p[i:]]. *)
Definition basename (p : string) : string :=
  let i := rfind p sep + 1 in
  slice_from p i.

(** The [while filenameIndex < dotIndex] loop of [genericpath._splitext].
    It runs at most [dotIndex - filenameIndex] times, which is the
    structural argument [n]. *)
Fixpoint splitext_loop (p : string) (dotIndex filenameIndex : Z) (n : nat)
  : string * string :=
  match n with
  | O => (p, slice_to p 0)
  | S k =>
      if filenameIndex <? dotIndex then
        if negb (slice p filenameIndex (filenameIndex + 1)
                 =? String extsep "")%string
        then (slice_to p dotIndex, slice_from p dotIndex)
        else splitext_loop p dotIndex (filenameIndex + 1) k
      else (p, slice_to p 0)
  end.

(** [splitext(p)] ([altsep] is [None] on POSIX):
<<
    sepIndex = p.rfind(sep)
    dotIndex = p.rfind(extsep)
    if dotIndex > sepIndex:
        # skip all leading dots
        filenameIndex = sepIndex + 1
        while filenameIndex < dotIndex:
            if p[filenameIndex:filenameIndex+1] != extsep:
                return p[:dotIndex], p[dotIndex:]
            filenameIndex += 1
    return p, p[:0]
>> *)
Definition splitext (p : string) : string * string :=
  let sepIndex := rfind p sep in
  let dotIndex := rfind p extsep in
  if sepIndex <? dotIndex then
    let filenameIndex := sepIndex + 1 in
    splitext_loop p dotIndex filenameIndex
      (Z.to_nat (dotIndex - filenameIndex))
  else (p, slice_to p 0).

(** [join(a, b)] with one further component:
<<
    path = a
    if b.startswith(sep):
        path = b
    elif not path or path.endswith(sep):
        path += b
    else:
        path += sep + b
    return path
>> *)
Definition join (a b : string) : string :=
  if startswith b (String sep "") then b
  else if negb (truthy a) || endswith a (String sep "") then a ++ b
  else a ++ String sep "" ++ b.

End posixpath.

(* ================================================================= *)
(** ** Lib/pathlib.py, the POSIX flavour *)

Module pathlib.
Import PyStr.

Definition sep : ascii := posixpath.sep.

(** A parsed path: drive (always empty on POSIX), root and parts; the root,
    when there is one, is also the first of the parts. *)
Record PurePath : Type := mkPath {
  _drv : string;
  _root : string;
  _parts : list string
}.

(** [_PosixFlavour.splitroot(part)]: exactly two leading slashes are kept,
    any other number of them is one root.
<<
    if part and part[0] == sep:
        stripped_part = part.lstrip(sep)
        if len(part) - len(stripped_part) == 2:
            return '', sep * 2, stripped_part
        else:
            return '', sep, stripped_part
    else:
        return '', '', part
>> *)
Definition splitroot (part : string) : string * string * string :=
  if truthy part && (slice part 0 1 =? String sep "")%string then
    let stripped_part := lstrip part sep in
    if len part - len stripped_part =? 2
    then ("", repeat (String sep "") 2, stripped_part)
    else ("", String sep "", stripped_part)
  else ("", "", part).

Definition keep_part (x : string) : bool :=
  truthy x && negb (x =? ".")%string.

(** [_Flavour.parse_parts] on the one-element list [[part]].  The source
    appends the components in reverse and reverses at the end; here they
    are built in order. *)
Definition parse_parts (part : string) : string * string * list string :=
  if negb (truthy part) then ("", "", [])
  else
    let '(drv, root, rel) := splitroot part in
    let parsed :=
      if contains rel sep then filter keep_part (split rel sep)
      else if keep_part rel then [rel] else [] in
    if truthy drv || truthy root
    then (drv, root, (drv ++ root) :: parsed)
    else (drv, root, parsed).

(** [PurePath(arg)] for a string argument. *)
Definition Path (arg : string) : PurePath :=
  let '(drv, root, parts) := parse_parts arg in
  mkPath drv root parts.

(** [_format_parsed_parts] and [__str__] (also [os.fspath]). *)
Definition format_parsed_parts (drv root : string) (parts : list string)
  : string :=
  if truthy drv || truthy root
  then drv ++ root ++ join (String sep "") (tl parts)
  else join (String sep "") parts.

Definition str (p : PurePath) : string :=
  let s := format_parsed_parts (_drv p) (_root p) (_parts p) in
  if truthy s then s else ".".

(** The [name] property: the final component, if any. *)
Definition name (p : PurePath) : string :=
  let anchored := if truthy (_drv p) || truthy (_root p) then 1%nat else 0%nat in
  if (List.length (_parts p) =? anchored)%nat then ""
  else last (_parts p) "".

(** The [suffix] property:
<<
    i = name.rfind('.')
    if 0 < i < len(name) - 1: return name[i:]
    else: return ''
>> *)
Definition suffix (p : PurePath) : string :=
  let name := name p in
  let i := rfind name "."%char in
  if (0 <? i) && (i <? len name - 1) then slice_from name i else "".

(** The [stem] property: the final component without its suffix. *)
Definition stem (p : PurePath) : string :=
  let name := name p in
  let i := rfind name "."%char in
  if (0 <? i) && (i <? len name - 1) then slice_to name i else name.

(** The [parent] property. *)
Definition parent (p : PurePath) : PurePath :=
  if (List.length (_parts p) =? 1)%nat
     && (truthy (_drv p) || truthy (_root p))
  then p
  else mkPath (_drv p) (_root p) (removelast (_parts p)).

End pathlib.

Module pathlib_with_suffix.
Import PyStr pathlib.

(** [repr] of a string without quotes, backslashes or control characters
    (the only use is inside an error message). *)
Definition repr (s : string) : string := "'" ++ s ++ "'".

(** [PurePath.with_suffix(suffix)]:
<<
    if f.sep in suffix or f.altsep and f.altsep in suffix:
        raise ValueError("Invalid suffix %r" % (suffix,))
    if suffix and not suffix.startswith('.') or suffix == '.':
        raise ValueError("Invalid suffix %r" % (suffix))
    name = self.name
    if not name:
        raise ValueError("%r has an empty name" % (self,))
    old_suffix = self.suffix
    if not old_suffix:
        name = name + suffix
    else:
        name = name[:-len(old_suffix)] + suffix
    return self._from_parsed_parts(self._drv, self._root,
                                   self._parts[:-1] + [name])
>> *)
Definition with_suffix (self : PurePath) (suffix : string) : result PurePath :=
  if contains suffix sep then
    Raise (ValueError ("Invalid suffix " ++ repr suffix))
  else if (truthy suffix && negb (startswith suffix "."))
          || (suffix =? ".")%string then
    Raise (ValueError ("Invalid suffix " ++ repr suffix))
  else
    let name := name self in
    if negb (truthy name) then
      Raise (ValueError ("PosixPath(" ++ repr (str self)
                         ++ ") has an empty name"))
    else
      let old_suffix := pathlib.suffix self in
      let name :=
        if negb (truthy old_suffix) then name ++ suffix
        else slice_to name (- len old_suffix) ++ suffix in
      Ok (mkPath (_drv self) (_root self)
                 (removelast (_parts self) ++ [name])%list).

End pathlib_with_suffix.

(* ================================================================= *)
(** ** export.py *)

Import PyStr.
Import pathlib.
Import pathlib_with_suffix.

(** An [Optional[str]] field. *)
Definition truthy_opt (o : option string) : bool :=
  match o with
  | Some s => truthy s
  | None => false
  end.

(** [o or d] for an optional string [o]. *)
Definition or_else (o : option string) (d : string) : string :=
  match o with
  | Some s => if truthy s then s else d
  | None => d
  end.

(** The values [image_shape] can hold: argparse gives a list ([nargs="+"])
    or the default tuple; a programmatic caller may pass any iterable of
    integers, of which [range] stands for the ones that are neither. *)
Inductive iterable : Type :=
| PyList (xs : list Z)
| PyTuple (xs : list Z)
| PyRange (start stop step : Z).

(** [len(range(start, stop, step))], for [step <> 0]. *)
Definition range_len (start stop step : Z) : nat :=
  if (0 <? step) && (start <? stop) then
    Z.to_nat ((stop - start - 1) / step + 1)
  else if (step <? 0) && (stop <? start) then
    Z.to_nat ((start - stop - 1) / (- step) + 1)
  else 0%nat.

(** The items an iterable yields, in order. *)
Definition iter (it : iterable) : list Z :=
  match it with
  | PyList xs => xs
  | PyTuple xs => xs
  | PyRange start stop step =>
      map (fun k => start + Z.of_nat k * step)
          (seq 0 (range_len start stop step))
  end.

(** The built-in [tuple(it)]. *)
Definition tuple (it : iterable) : iterable := PyTuple (iter it).

(** The fields as the generated [__init__] stores them, before
    [__post_init__] runs. *)
Record RawArgs : Type := mkRawArgs {
  raw_checkpoint : string;
  raw_config : option string;
  raw_recipe : option string;
  raw_no_qat_conv : bool;
  raw_batch_size : Z;
  raw_image_shape : iterable;
  raw_save_dir : option string;
  raw_filename : option string
}.

(** The fields once [__post_init__] has returned. *)
Record ExportArgs : Type := mkExportArgs {
  checkpoint : PurePath;
  config : PurePath;
  recipe : option string;
  no_qat_conv : bool;
  batch_size : Z;
  image_shape : iterable;
  save_dir : string;
  filename : string
}.

(** The errno values the code meets (Linux numbering). *)
Definition ENOENT : Z := 2.
Definition EBADF : Z := 9.
Definition EACCES : Z := 13.
Definition ENOTDIR : Z := 20.
Definition ENAMETOOLONG : Z := 36.
Definition ELOOP : Z := 40.

(** How [os.stat] fails: with an [OSError] carrying an errno, or with a
    [ValueError] for a name that cannot be encoded (an embedded null
    byte). *)
Inductive stat_failure : Type :=
| StatOSError (errno : Z)
| StatValueError.

(** The file system as [os.stat] sees it: [found] tells for which path
    names [os.stat] succeeds, [failure] how it fails for the others.  A file
    system applied to a path name is [found] of that name. *)
Record FileSystem : Type := mkFileSystem {
  found : string -> bool;
  failure : string -> stat_failure
}.

Coercion found : FileSystem >-> Funclass.

(** [pathlib._ignore_error]: the errno is one of
    [_IGNORED_ERRNOS = (ENOENT, ENOTDIR, EBADF, ELOOP)] (there is no
    [winerror] on POSIX). *)
Definition ignore_error (errno : Z) : bool :=
  existsb (Z.eqb errno) [ENOENT; ENOTDIR; EBADF; ELOOP].

(** [Path.exists(self)], as a function of the file system:
<<
      try:
          self.stat()
      except OSError as e:
          if not _ignore_error(e):
              raise
          return False
      except ValueError:
          # Non-encodable path
          return False
      return True
>> *)
Definition path_exists (fs : FileSystem) (p : PurePath) : result bool :=
  if found fs (str p) then Ok true
  else match failure fs (str p) with
       | StatOSError errno =>
           if negb (ignore_error errno) then Raise (OSError errno (str p))
           else Ok false
       | StatValueError => Ok false
       end.

Section Resolver.

(** The file system the script runs on. *)
Variable fs : FileSystem.

Local Open Scope py_scope.

(** The call [p.exists()]: one probe of the file system. *)
Definition exists_ (p : PurePath) : M bool :=
  call (Exists (str p)) (path_exists fs p).

(** The path [__post_init__] stores in [self.config]:
    [Path(self.config or os.path.dirname(self.checkpoint) + "/args.yaml")]. *)
Definition config_path (self : RawArgs) : PurePath :=
  Path (or_else (raw_config self)
          (posixpath.dirname (str (Path (raw_checkpoint self)))
           ++ "/args.yaml")).

(** The [if self.filename: ... else: ...] block. *)
Definition resolve_filename (checkpoint : PurePath) (f : option string)
  : result string :=
  if truthy_opt f then
    let filename := or_else f "" in
    let '(head, extension) := posixpath.splitext filename in
    if negb (truthy extension) then Ok (filename ++ ".onnx")
    else Ok filename
  else
    match with_suffix checkpoint ".onnx" with
    | Ok p => Ok (name p)
    | Raise e => Raise e
    end.

(** [ExportArgs.__post_init__]. *)
Definition post_init (self : RawArgs) : M ExportArgs :=
  let checkpoint := Path (raw_checkpoint self) in
  found <- exists_ checkpoint ;;
  if negb found then
    raise (FileNotFoundError
             ("The checkpoint " ++ str checkpoint ++ " does not exist."))
  else
    let config := config_path self in
    found <- exists_ config ;;
    if negb found then
      raise (FileNotFoundError
               ("The config file " ++ str config ++ " does not exist."))
    else
      let image_shape := tuple (raw_image_shape self) in
      let save_dir :=
        if negb (truthy_opt (raw_save_dir self)) then "onnx"
        else or_else (raw_save_dir self) "" in
      filename <- lift (resolve_filename checkpoint (raw_filename self)) ;;
      ret {| checkpoint := checkpoint;
             config := config;
             recipe := raw_recipe self;
             no_qat_conv := raw_no_qat_conv self;
             batch_size := raw_batch_size self;
             image_shape := image_shape;
             save_dir := save_dir;
             filename := filename |}.

End Resolver.

Section Exporter.

(** The collaborators: what each call answers.  A model is a value; the
    calls that mutate it in place return the mutated model. *)
Variables Cfg Model Manager StateDict Tensor : Type.
Variable load_cfg : string -> result Cfg.
Variable create_model : Cfg -> result Model.
Variable from_yaml : option string -> result Manager.
Variable manager_apply : Manager -> Model -> result Model.
Variable torch_load : string -> result StateDict.
Variable load_state_dict : Model -> StateDict -> result Model.
Variable randn : list Z -> result Tensor.
Variable export_onnx : Model -> Tensor -> string -> bool -> result unit.

Local Open Scope py_scope.

(** [export(args)]. *)
Definition export (args : ExportArgs) : M unit :=
  cfg <- call (OpenYaml (str (config args))) (load_cfg (str (config args))) ;;
  model <- call CreateModel (create_model cfg) ;;
  manager <- call (FromYaml (recipe args)) (from_yaml (recipe args)) ;;
  model <- call Apply (manager_apply manager model) ;;
  let batch_shape := batch_size args :: iter (image_shape args) in
  state_dict <- call (TorchLoad (str (checkpoint args)))
                     (torch_load (str (checkpoint args))) ;;
  model <- call LoadStateDict (load_state_dict model state_dict) ;;
  sample_batch <- call (Randn batch_shape) (randn batch_shape) ;;
  let file_path := posixpath.join (save_dir args) (filename args) in
  call (ExportOnnx batch_shape file_path (negb (no_qat_conv args)))
       (export_onnx model sample_batch file_path (negb (no_qat_conv args))).

End Exporter.

(* ================================================================= *)
(** ** Scenarios: concrete worlds and arguments *)

(** A file system that holds exactly the listed path names; [os.stat] of
    any other name fails with [ENOENT]. *)
Definition fs_of (files : list string) : FileSystem :=
  {| found := fun p => existsb (String.eqb p) files;
     failure := fun _ => StatOSError ENOENT |}.

(** [self] with another [image_shape]. *)
Definition with_image_shape (self : RawArgs) (it : iterable) : RawArgs :=
  {| raw_checkpoint := raw_checkpoint self;
     raw_config := raw_config self;
     raw_recipe := raw_recipe self;
     raw_no_qat_conv := raw_no_qat_conv self;
     raw_batch_size := raw_batch_size self;
     raw_image_shape := it;
     raw_save_dir := raw_save_dir self;
     raw_filename := raw_filename self |}.

(** The command line [--checkpoint ckpt [--save-dir d] [--filename f]] with
    argparse's defaults for the rest. *)
Definition cli (ckpt : string) (cfg save_dir filename : option string)
  : RawArgs :=
  {| raw_checkpoint := ckpt;
     raw_config := cfg;
     raw_recipe := None;
     raw_no_qat_conv := false;
     raw_batch_size := 1;
     raw_image_shape := PyTuple [3; 550; 550];
     raw_save_dir := save_dir;
     raw_filename := filename |}.

(** The checkpoint directory of the first end-to-end scenario. *)
Definition ckpt_dir : FileSystem :=
  fs_of ["ckpt/model.pth.tar"; "ckpt/args.yaml"].

(** A working directory holding a checkpoint and its [args.yaml]. *)
Definition flat_dir : FileSystem :=
  fs_of ["model.pth"; "args.yaml"].

(** An empty file system. *)
Definition no_files : FileSystem := fs_of [].

(** The same with the limit on names that Linux file systems have:
    [os.stat] of a name with a component of more than 255 characters fails
    with [ENAMETOOLONG]. *)
Definition fs_with_name_limit (files : list string) : FileSystem :=
  {| found := fun p => existsb (String.eqb p) files;
     failure := fun p =>
       if existsb (fun c => 255 <? len c) (split p "/")
       then StatOSError ENAMETOOLONG
       else StatOSError ENOENT |}.

(** A name of 256 characters. *)
Definition long_name (c : string) : string := PyStr.repeat c 256.

(** What resolution stores for a checkpoint [ckpt/model.pth.tar] with its
    sibling [args.yaml], given the resolved directory and filename. *)
Definition resolved_in_ckpt_dir (shape : list Z) (dir fn : string)
  : ExportArgs :=
  {| checkpoint := mkPath "" "" ["ckpt"; "model.pth.tar"];
     config := mkPath "" "" ["ckpt"; "args.yaml"];
     recipe := None;
     no_qat_conv := false;
     batch_size := 1;
     image_shape := PyTuple shape;
     save_dir := dir;
     filename := fn |}.

Definition probes_in_ckpt_dir : list event :=
  [Exists "ckpt/model.pth.tar"; Exists "ckpt/args.yaml"].

(* ================================================================= *)
(** ** The script's entry point *)

Section Main.

Variable fs : FileSystem.
Variables Cfg Model Manager StateDict Tensor : Type.
Variable load_cfg : string -> result Cfg.
Variable create_model : Cfg -> result Model.
Variable from_yaml : option string -> result Manager.
Variable manager_apply : Manager -> Model -> result Model.
Variable torch_load : string -> result StateDict.
Variable load_state_dict : Model -> StateDict -> result Model.
Variable randn : list Z -> result Tensor.
Variable export_onnx : Model -> Tensor -> string -> bool -> result unit.

(** The [__main__] block, [export(parse_args())], from the namespace [ns]
    that [parser.parse_args()] returned: the [ExportArgs] constructor stores
    its fields and runs [__post_init__]; [export] gets the result. *)
Definition main (ns : RawArgs) : M unit :=
  (export_args <- post_init fs ns ;;
   export Cfg Model Manager StateDict Tensor load_cfg create_model from_yaml
          manager_apply torch_load load_state_dict randn export_onnx
          export_args)%py.

End Main.

(** The outside calls of [export], one per statement, in source order. *)
Definition export_calls (args : ExportArgs) : list event :=
  let batch_shape := batch_size args :: iter (image_shape args) in
  [OpenYaml (str (config args));
   CreateModel;
   FromYaml (recipe args);
   Apply;
   TorchLoad (str (checkpoint args));
   LoadStateDict;
   Randn batch_shape;
   ExportOnnx batch_shape
     (posixpath.join (save_dir args) (filename args))
     (negb (no_qat_conv args))].

(** [self] with other values for the three fields that [__post_init__]
    does not touch. *)
Definition with_untouched (self : RawArgs) (recipe : option string)
           (no_qat_conv : bool) (batch_size : Z) : RawArgs :=
  {| raw_checkpoint := raw_checkpoint self;
     raw_config := raw_config self;
     raw_recipe := recipe;
     raw_no_qat_conv := no_qat_conv;
     raw_batch_size := batch_size;
     raw_image_shape := raw_image_shape self;
     raw_save_dir := raw_save_dir self;
     raw_filename := raw_filename self |}.

(** [self] with another [checkpoint]. *)
Definition with_checkpoint (self : RawArgs) (ckpt : string) : RawArgs :=
  {| raw_checkpoint := ckpt;
     raw_config := raw_config self;
     raw_recipe := raw_recipe self;
     raw_no_qat_conv := raw_no_qat_conv self;
     raw_batch_size := raw_batch_size self;
     raw_image_shape := raw_image_shape self;
     raw_save_dir := raw_save_dir self;
     raw_filename := raw_filename self |}.

(** A path component as [parse_parts] keeps them: not empty, not a single
    dot, without a slash. *)
Definition component (c : string) : Prop :=
  keep_part c = true /\ contains c sep = false.

(** Collaborators that answer every call. *)
Definition answers1 {A} (_ : A) : result unit := Ok tt.
Definition answers2 {A B} (_ : A) (_ : B) : result unit := Ok tt.
Definition answers4 {A B C D} (_ : A) (_ : B) (_ : C) (_ : D) : result unit :=
  Ok tt.

(** A recipe loader that cannot load an absent recipe. *)
Definition needs_recipe (recipe : option string) : result unit :=
  match recipe with
  | Some _ => Ok tt
  | None => Raise (OtherError "TypeError" "expected str, not NoneType")
  end.

(* ================================================================= *)
(** ** Facts about the string operations *)

Module PyStrFacts.
Import PyStr.

Lemma truthy_false (s : string) : truthy s = false <-> s = "".
Proof.
  unfold truthy. destruct s; simpl; split; intro H;
    try reflexivity; discriminate.
Qed.

Lemma truthy_true (s : string) : truthy s = true <-> s <> "".
Proof.
  unfold truthy. destruct s; simpl; split; intro H;
    try reflexivity; try discriminate; congruence.
Qed.

Lemma len_nonneg (s : string) : 0 <= len s.
Proof. unfold len. lia. Qed.

Lemma len_cons (a : ascii) (s : string) : len (String a s) = len s + 1.
Proof. unfold len. simpl String.length. lia. Qed.

Lemma take_drop (n : nat) (s : string) : take n s ++ drop n s = s.
Proof.
  revert s. induction n as [|n IH]; intros [|a s]; simpl; try reflexivity.
  now rewrite IH.
Qed.

Lemma length_take (n : nat) (s : string) :
  (n <= String.length s)%nat -> String.length (take n s) = n.
Proof.
  revert s. induction n as [|n IH]; intros [|a s]; simpl; intro H;
    try reflexivity; try lia.
  rewrite IH; lia.
Qed.

Lemma length_drop (n : nat) (s : string) :
  String.length (drop n s) = (String.length s - n)%nat.
Proof.
  revert s. induction n as [|n IH]; intros [|a s]; simpl;
    try reflexivity; try lia.
  apply IH.
Qed.

Lemma bound_le (s : string) (i : Z) : (bound s i <= String.length s)%nat.
Proof. unfold bound, len. lia. Qed.

Lemma bound_in_range (s : string) (i : Z) :
  0 <= i <= len s -> bound s i = Z.to_nat i.
Proof.
  intros H. unfold bound.
  destruct (Z.ltb_spec i 0); lia.
Qed.

Lemma bound_from_end (s : string) (k : Z) :
  0 < k <= len s -> bound s (- k) = Z.to_nat (len s - k).
Proof.
  intros H. unfold bound.
  destruct (Z.ltb_spec (- k) 0); lia.
Qed.

Lemma slice_to_0 (s : string) : slice_to s 0 = "".
Proof.
  unfold slice_to. rewrite bound_in_range by (pose proof (len_nonneg s); lia).
  now destruct s.
Qed.

Lemma rfind_ge (s : string) (c : ascii) : -1 <= rfind s c.
Proof.
  induction s as [|a s IH]; simpl; [lia|].
  destruct (Z.leb_spec 0 (rfind s c)); [lia|].
  destruct (a =? c)%char; lia.
Qed.

Lemma rfind_lt (s : string) (c : ascii) : rfind s c < len s.
Proof.
  induction s as [|a s IH]; [unfold len; simpl; lia|].
  rewrite len_cons. simpl.
  pose proof (len_nonneg s).
  destruct (Z.leb_spec 0 (rfind s c)); [lia|].
  destruct (a =? c)%char; lia.
Qed.

Lemma rfind_absent (s : string) (c : ascii) :
  contains s c = false <-> rfind s c = -1.
Proof.
  induction s as [|a s IH]; simpl; [tauto|].
  pose proof (rfind_ge s c).
  destruct (Z.leb_spec 0 (rfind s c)) as [Hr|Hr].
  - split; intro Hc.
    + apply orb_false_iff in Hc. destruct Hc as [_ Hc].
      apply IH in Hc. lia.
    + lia.
  - destruct (a =? c)%char; simpl.
    + split; intro; [discriminate | lia].
    + rewrite IH. split; intro; lia.
Qed.

Lemma rfind_app (s t : string) (c : ascii) :
  rfind (s ++ t) c =
  if 0 <=? rfind t c then len s + rfind t c else rfind s c.
Proof.
  induction s as [|a s IH].
  - simpl. pose proof (rfind_ge t c).
    destruct (Z.leb_spec 0 (rfind t c)); unfold len; simpl; lia.
  - rewrite len_cons. simpl. rewrite IH.
    destruct (Z.leb_spec 0 (rfind t c)) as [Ht|Ht].
    + pose proof (len_nonneg s).
      destruct (Z.leb_spec 0 (len s + rfind t c)); lia.
    + reflexivity.
Qed.

Lemma endswith_refl (s : string) : endswith s s = true.
Proof. destruct s; simpl; now rewrite ?Ascii.eqb_refl, ?String.eqb_refl. Qed.

Lemma endswith_app (s t : string) : endswith (s ++ t) t = true.
Proof.
  induction s as [|a s IH]; simpl.
  - apply endswith_refl.
  - rewrite IH. apply orb_true_r.
Qed.

End PyStrFacts.

(* ================================================================= *)
(** ** Facts about paths *)

Module PathFacts.
Import PyStr PyStrFacts.

(** The final component is its stem followed by its suffix. *)
Lemma name_stem_suffix (p : PurePath) : name p = stem p ++ suffix p.
Proof.
  unfold stem, suffix.
  destruct ((0 <? rfind (name p) ".") && (rfind (name p) "." <? len (name p) - 1)).
  - unfold slice_to, slice_from. now rewrite take_drop.
  - generalize (name p). intro s. induction s; simpl; congruence.
Qed.

(** A suffix, when there is one, is cut from inside the name. *)
Lemma suffix_cut (p : PurePath) :
  suffix p <> "" ->
  0 < len (suffix p) <= len (name p) /\
  slice_to (name p) (- len (suffix p)) = stem p.
Proof.
  unfold stem, suffix. set (s := name p). set (i := rfind s ".").
  destruct (Z.ltb_spec 0 i) as [Hi|Hi]; simpl; [|congruence].
  destruct (Z.ltb_spec i (len s - 1)) as [Hj|Hj]; simpl; [|congruence].
  intros _.
  assert (Hb : bound s i = Z.to_nat i) by (apply bound_in_range; lia).
  assert (Hl : len (slice_from s i) = len s - i).
  { unfold slice_from, len. rewrite Hb, length_drop. unfold len in Hj. lia. }
  rewrite Hl. split; [lia|].
  unfold slice_to. rewrite bound_from_end by lia.
  rewrite Hb. f_equal. lia.
Qed.

Lemma last_snoc {A} (l : list A) (x d : A) : last (l ++ [x]) d = x.
Proof.
  induction l as [|a l IH]; [reflexivity|].
  simpl. destruct (l ++ [x])%list eqn:E; [destruct l; discriminate|].
  exact IH.
Qed.

Lemma length_removelast_snoc {A} (l : list A) (x : A) :
  l <> [] -> List.length (removelast l ++ [x]) = List.length l.
Proof.
  intro H. rewrite (app_removelast_last x H) at 2.
  now rewrite !length_app.
Qed.

(** [with_suffix] with the export extension fails only on an empty name,
    and otherwise replaces the suffix of the final component. *)
Lemma with_suffix_onnx (p : PurePath) :
  (name p = "" /\ exists e, with_suffix p ".onnx" = Raise (ValueError e)) \/
  (name p <> "" /\
   exists q, with_suffix p ".onnx" = Ok q /\ name q = stem p ++ ".onnx").
Proof.
  unfold with_suffix. simpl (contains _ _). cbv iota.
  simpl (truthy ".onnx" && _ || _). cbv iota.
  destruct (truthy (name p)) eqn:Hn; simpl.
  - right. apply truthy_true in Hn. split; [exact Hn|].
    eexists. split; [reflexivity|].
    assert (Hparts : _parts p <> []).
    { intro E. apply Hn. unfold name. rewrite E.
      now destruct (truthy (_drv p) || truthy (_root p)). }
    assert (Hlen : (List.length (_parts p) =?
              (if truthy (_drv p) || truthy (_root p) then 1 else 0))%nat
            = false).
    { destruct (Nat.eqb_spec (List.length (_parts p))
                 (if truthy (_drv p) || truthy (_root p) then 1 else 0)%nat)
        as [E|E]; [|reflexivity].
      exfalso. apply Hn. unfold name.
      now rewrite (proj2 (Nat.eqb_eq _ _) E). }
    unfold name at 1. cbn [_drv _root _parts].
    rewrite length_removelast_snoc by exact Hparts.
    rewrite Hlen, last_snoc.
    destruct (truthy (suffix p)) eqn:Hs; simpl.
    + apply truthy_true in Hs. destruct (suffix_cut p Hs) as [_ ->].
      reflexivity.
    + apply truthy_false in Hs. f_equal.
      pose proof (name_stem_suffix p) as E. rewrite Hs in E.
      rewrite E. generalize (stem p). intro s.
      induction s; simpl; congruence.
  - left. apply truthy_false in Hn. split; [exact Hn|]. eauto.
Qed.

(** A name whose final component is a dot followed by dot-free text has no
    extension for [splitext]. *)
Lemma splitext_dotfile (f rest : string) :
  posixpath.basename f = String "." rest ->
  contains rest "." = false ->
  posixpath.splitext f = (f, "").
Proof.
  unfold posixpath.basename, slice_from. intros Hb Hrest.
  set (i := rfind f posixpath.sep) in *.
  pose proof (rfind_ge f posixpath.sep) as Hge.
  pose proof (rfind_lt f posixpath.sep) as Hlt. fold i in Hge, Hlt.
  assert (Hn : bound f (i + 1) = Z.to_nat (i + 1))
    by (apply bound_in_range; lia).
  rewrite Hn in Hb.
  assert (Hdot : rfind f posixpath.extsep = i + 1).
  { pose proof (rfind_app (take (Z.to_nat (i + 1)) f)
                  (drop (Z.to_nat (i + 1)) f) posixpath.extsep) as E.
    rewrite take_drop, Hb in E.
    apply rfind_absent in Hrest.
    unfold posixpath.extsep in E. simpl rfind in E.
    change (rfind rest ".") with (rfind rest "."%char) in E.
    rewrite Hrest in E. simpl in E.
    unfold len in E. rewrite length_take in E by (unfold len in Hlt; lia).
    unfold posixpath.extsep. lia. }
  unfold posixpath.splitext. fold i. rewrite Hdot.
  destruct (Z.ltb_spec i (i + 1)); [|lia].
  replace (i + 1 - (i + 1)) with 0 by lia. simpl.
  now rewrite slice_to_0.
Qed.

End PathFacts.

(* ================================================================= *)
(** ** Facts about the resolver *)

Module ResolverFacts.
Import PyStr PyStrFacts PathFacts.

(** [Path.exists] answers true exactly where [os.stat] succeeds. *)
Lemma path_exists_found (fs : FileSystem) (p : PurePath) :
  path_exists fs p = Ok true <-> fs (str p) = true.
Proof.
  unfold path_exists. destruct (found fs (str p)); [tauto|].
  split; [|discriminate].
  destruct (failure fs (str p)) as [errno|]; [|discriminate].
  destruct (negb (ignore_error errno)); discriminate.
Qed.

(** [Path.exists] answers false exactly where [os.stat] fails in a way it
    ignores: an [OSError] with one of the four ignored errnos, or a
    [ValueError]. *)
Lemma path_exists_absent (fs : FileSystem) (p : PurePath) :
  path_exists fs p = Ok false <->
  fs (str p) = false /\
  (failure fs (str p) = StatValueError \/
   exists errno, failure fs (str p) = StatOSError errno
                 /\ In errno [ENOENT; ENOTDIR; EBADF; ELOOP]).
Proof.
  unfold path_exists. destruct (found fs (str p)).
  - split; [discriminate|]. intros [H _]. discriminate.
  - destruct (failure fs (str p)) as [errno|].
    + destruct (ignore_error errno) eqn:I; simpl.
      * split; [intros _|reflexivity]. split; [reflexivity|right].
        exists errno. split; [reflexivity|].
        unfold ignore_error in I. apply existsb_exists in I.
        destruct I as (x & Hin & Hx). apply Z.eqb_eq in Hx. now subst.
      * split; [discriminate|]. intros [_ [H|(n & H & Hin)]];
          [discriminate|]. injection H as <-.
        assert (ignore_error errno = true).
        { unfold ignore_error. apply existsb_exists. exists errno.
          split; [exact Hin|apply Z.eqb_refl]. }
        congruence.
    + split; [intros _|reflexivity]. auto.
Qed.

(** The three outcomes of [Path.exists]. *)
Lemma path_exists_cases (fs : FileSystem) (p : PurePath) :
  (fs (str p) = true /\ path_exists fs p = Ok true) \/
  (fs (str p) = false /\ path_exists fs p = Ok false) \/
  (fs (str p) = false /\
   exists errno,
     failure fs (str p) = StatOSError errno /\
     ignore_error errno = false /\
     path_exists fs p = Raise (OSError errno (str p))).
Proof.
  unfold path_exists. destruct (found fs (str p)); [now left|right].
  destruct (failure fs (str p)) as [errno|]; [|now left].
  destruct (ignore_error errno) eqn:I; simpl; [now left|right].
  split; [reflexivity|]. exists errno. auto.
Qed.

(** A path name without a slash parses to itself, or to nothing when it is
    empty or a single dot. *)
Lemma Path_bare (s : string) :
  contains s sep = false ->
  Path s = mkPath "" "" (if keep_part s then [s] else []).
Proof.
  intro H. unfold Path, parse_parts.
  destruct s as [|a s]; [reflexivity|].
  assert (Hroot : splitroot (String a s) = ("", "", String a s)).
  { unfold splitroot. simpl in H. apply orb_false_iff in H.
    destruct H as [Ha _].
    assert (E : slice (String a s) 0 1 = String a "").
    { unfold slice.
      rewrite !bound_in_range
        by (rewrite len_cons; pose proof (len_nonneg s); lia).
      reflexivity. }
    rewrite E. simpl. unfold sep, posixpath.sep in *.
    now rewrite Ha. }
  simpl (negb (truthy (String a s))). cbv iota.
  rewrite Hroot, H. simpl.
  now destruct (keep_part (String a s)).
Qed.

Lemma str_bare (s : string) :
  contains s sep = false ->
  str (Path s) = if keep_part s then s else ".".
Proof.
  intro H. rewrite (Path_bare s H). unfold str, format_parsed_parts.
  simpl. destruct (keep_part s) eqn:K; simpl; [|reflexivity].
  unfold keep_part in K. apply andb_true_iff in K. destruct K as [K _].
  now rewrite K.
Qed.

Lemma dirname_bare (p : string) :
  contains p posixpath.sep = false -> posixpath.dirname p = "".
Proof.
  intro H. apply rfind_absent in H. unfold posixpath.dirname.
  rewrite H. simpl (-1 + 1). now rewrite slice_to_0.
Qed.

(** For a checkpoint given without a directory and no [config], the file
    [__post_init__] looks for is [/args.yaml], in the root directory. *)
Lemma config_path_bare (self : RawArgs) :
  contains (raw_checkpoint self) sep = false ->
  truthy_opt (raw_config self) = false ->
  config_path self = Path "/args.yaml".
Proof.
  intros Hc Hcfg. unfold config_path.
  assert (E : or_else (raw_config self)
                (posixpath.dirname (str (Path (raw_checkpoint self)))
                 ++ "/args.yaml") = "/args.yaml").
  { rewrite dirname_bare.
    - destruct (raw_config self) as [c|]; simpl in *; [|reflexivity].
      now rewrite Hcfg.
    - rewrite (str_bare _ Hc).
      destruct (keep_part (raw_checkpoint self)); [exact Hc|reflexivity]. }
  now rewrite E.
Qed.

(** The filename block, case by case. *)
Lemma resolve_filename_supplied (ckpt : PurePath) (f : string) :
  f <> "" ->
  resolve_filename ckpt (Some f) =
  Ok (if truthy (snd (posixpath.splitext f)) then f else f ++ ".onnx").
Proof.
  intro H. apply truthy_true in H. unfold resolve_filename. simpl.
  rewrite H. destruct (posixpath.splitext f) as [head extension]. simpl.
  now destruct (truthy extension).
Qed.

Lemma resolve_filename_absent (ckpt : PurePath) (f : option string) (fn : string) :
  truthy_opt f = false ->
  resolve_filename ckpt f = Ok fn ->
  name ckpt <> "" /\ fn = stem ckpt ++ ".onnx".
Proof.
  intros H. unfold resolve_filename. rewrite H.
  destruct (with_suffix_onnx ckpt) as [[_ [e ->]]|[Hn [q [-> Hq]]]].
  - discriminate.
  - intro E. injection E as <-. now split.
Qed.

(** What a returning [__post_init__] has done and stored. *)
Lemma post_init_inv (fs : FileSystem) (self : RawArgs)
      (tr : list event) (r : ExportArgs) :
  run (post_init fs self) = (tr, Ok r) ->
  fs (str (Path (raw_checkpoint self))) = true /\
  fs (str (config_path self)) = true /\
  tr = [Exists (str (Path (raw_checkpoint self)));
        Exists (str (config_path self))] /\
  checkpoint r = Path (raw_checkpoint self) /\
  config r = config_path self /\
  recipe r = raw_recipe self /\
  no_qat_conv r = raw_no_qat_conv self /\
  batch_size r = raw_batch_size self /\
  image_shape r = tuple (raw_image_shape self) /\
  save_dir r = or_else (raw_save_dir self) "onnx" /\
  resolve_filename (Path (raw_checkpoint self)) (raw_filename self)
  = Ok (filename r).
Proof.
  unfold run, post_init, bind, exists_, call, lift, raise, ret.
  destruct (path_exists_cases fs (Path (raw_checkpoint self)))
    as [[H1 ->]|[[_ ->]|[_ (n & _ & _ & ->)]]]; simpl; try discriminate.
  destruct (path_exists_cases fs (config_path self))
    as [[H2 ->]|[[_ ->]|[_ (n & _ & _ & ->)]]]; simpl; try discriminate.
  destruct (resolve_filename _ _) as [fn|e]; [|discriminate].
  intro E. injection E as <- <-. simpl.
  repeat split; try assumption.
  destruct (raw_save_dir self) as [d|]; simpl; [|reflexivity].
  now destruct (truthy d).
Qed.

(** [__post_init__] returns whenever both files exist and a filename can
    be had: one was supplied, or the checkpoint has a final component. *)
Lemma post_init_returns (fs : FileSystem) (self : RawArgs) :
  fs (str (Path (raw_checkpoint self))) = true ->
  fs (str (config_path self)) = true ->
  truthy_opt (raw_filename self) = true
  \/ name (Path (raw_checkpoint self)) <> "" ->
  exists r,
    run (post_init fs self)
    = ([Exists (str (Path (raw_checkpoint self)));
        Exists (str (config_path self))], Ok r).
Proof.
  intros H1 H2 H3.
  unfold run, post_init, bind, exists_, call, lift, raise, ret.
  rewrite (proj2 (path_exists_found _ _) H1). simpl.
  rewrite (proj2 (path_exists_found _ _) H2). simpl.
  assert (exists fn, resolve_filename (Path (raw_checkpoint self))
                       (raw_filename self) = Ok fn) as [fn ->].
  { destruct (truthy_opt (raw_filename self)) eqn:T.
    - destruct (raw_filename self) as [f|]; [|discriminate].
      simpl in T. apply truthy_true in T.
      rewrite (resolve_filename_supplied _ f T). eauto.
    - destruct H3 as [H3|H3]; [discriminate|].
      unfold resolve_filename. rewrite T.
      destruct (with_suffix_onnx (Path (raw_checkpoint self)))
        as [[Hn _]|[_ [q [-> _]]]]; [contradiction|eauto]. }
  eauto.
Qed.

(** The filename stored for a supplied, non-empty one. *)
Lemma post_init_filename_supplied (fs : FileSystem) (self : RawArgs)
      (tr : list event) (r : ExportArgs) (f : string) :
  raw_filename self = Some f ->
  f <> "" ->
  run (post_init fs self) = (tr, Ok r) ->
  filename r
  = if truthy (snd (posixpath.splitext f)) then f else f ++ ".onnx".
Proof.
  intros Hf Hne Hrun.
  destruct (post_init_inv fs self tr r Hrun)
    as (_ & _ & _ & _ & _ & _ & _ & _ & _ & _ & Hfn).
  rewrite Hf, (resolve_filename_supplied _ f Hne) in Hfn.
  now injection Hfn as <-.
Qed.

End ResolverFacts.

(* ================================================================= *)
(** ** The resolver: filenames *)

Import PyStr PyStrFacts PathFacts ResolverFacts.

(** C1, in the form the code satisfies.  When [filename] is absent (or empty) and resolution
    returns, the resolved filename is the checkpoint's final component with
    its suffix, the part from its last dot, replaced by [.onnx]; earlier
    dotted parts stay, so [./ckpt/model.pth.tar] resolves to
    [model.pth.onnx]. *)
Theorem C1_absent_filename_replaces_last_suffix
        (fs : FileSystem) (self : RawArgs)
        (tr : list event) (r : ExportArgs) :
  truthy_opt (raw_filename self) = false ->
  run (post_init fs self) = (tr, Ok r) ->
  name (checkpoint r) = stem (checkpoint r) ++ suffix (checkpoint r) /\
  filename r = stem (checkpoint r) ++ ".onnx" /\
  (raw_checkpoint self = "./ckpt/model.pth.tar" ->
   filename r = "model.pth.onnx").
Proof.
  intros Habs Hrun.
  destruct (post_init_inv fs self tr r Hrun)
    as (_ & _ & _ & Hck & _ & _ & _ & _ & _ & _ & Hfn).
  destruct (resolve_filename_absent _ _ _ Habs Hfn) as [_ E].
  rewrite Hck. split; [apply name_stem_suffix|]. split; [exact E|].
  intro Hc. rewrite E, Hc. reflexivity.
Qed.

Lemma C1_absent_filename_witness :
  truthy_opt (raw_filename (cli "./ckpt/model.pth.tar" None None None)) = false /\
  run (post_init ckpt_dir (cli "./ckpt/model.pth.tar" None None None))
  = (probes_in_ckpt_dir,
     Ok (resolved_in_ckpt_dir [3; 550; 550] "onnx" "model.pth.onnx")) /\
  filename (resolved_in_ckpt_dir [3; 550; 550] "onnx" "model.pth.onnx")
  = "model.pth" ++ ".onnx".
Proof.
  split; [reflexivity|]. split; [reflexivity|].
  apply (C1_absent_filename_replaces_last_suffix ckpt_dir
           (cli "./ckpt/model.pth.tar" None None None)
           probes_in_ckpt_dir
           (resolved_in_ckpt_dir [3; 550; 550] "onnx" "model.pth.onnx"));
    reflexivity.
Defined.

(** C1 as stated fails on its own example: for [./ckpt/model.pth.tar] the
    resolved filename is [model.pth.onnx], not [model.onnx]. *)
Lemma C1_model_pth_tar_counterexample :
  run (post_init ckpt_dir (cli "./ckpt/model.pth.tar" None None None))
  = (probes_in_ckpt_dir,
     Ok (resolved_in_ckpt_dir [3; 550; 550] "onnx" "model.pth.onnx")) /\
  filename (resolved_in_ckpt_dir [3; 550; 550] "onnx" "model.pth.onnx")
  <> "model.onnx".
Proof. split; [reflexivity | discriminate]. Qed.

(** C3, in the form the code satisfies.  When resolution returns and the filename was absent or
    empty, or was supplied without an extension, the resolved filename ends
    with [.onnx]. *)
Theorem C3_filename_ends_with_onnx
        (fs : FileSystem) (self : RawArgs)
        (tr : list event) (r : ExportArgs) :
  run (post_init fs self) = (tr, Ok r) ->
  truthy_opt (raw_filename self) = false
  \/ (exists f, raw_filename self = Some f
                /\ snd (posixpath.splitext f) = "") ->
  endswith (filename r) ".onnx" = true.
Proof.
  intros Hrun Hcase.
  destruct (post_init_inv fs self tr r Hrun)
    as (_ & _ & _ & _ & _ & _ & _ & _ & _ & _ & Hfn).
  destruct (truthy_opt (raw_filename self)) eqn:T.
  - destruct Hcase as [Habs|[f [Hf Hext]]]; [discriminate|].
    rewrite Hf in *. simpl in T. apply truthy_true in T.
    rewrite (resolve_filename_supplied _ f T), Hext in Hfn.
    simpl in Hfn. injection Hfn as <-. apply endswith_app.
  - destruct (resolve_filename_absent _ _ _ T Hfn) as [_ ->].
    apply endswith_app.
Qed.

Lemma C3_filename_ends_with_onnx_witness :
  run (post_init ckpt_dir
         (cli "./ckpt/model.pth.tar" None (Some "exported") (Some "vit_base")))
  = (probes_in_ckpt_dir,
     Ok (resolved_in_ckpt_dir [3; 550; 550] "exported" "vit_base.onnx")) /\
  snd (posixpath.splitext "vit_base") = "" /\
  endswith "vit_base.onnx" ".onnx" = true.
Proof.
  split; [reflexivity|]. split; [reflexivity|].
  apply (C3_filename_ends_with_onnx ckpt_dir
           (cli "./ckpt/model.pth.tar" None (Some "exported") (Some "vit_base"))
           probes_in_ckpt_dir
           (resolved_in_ckpt_dir [3; 550; 550] "exported" "vit_base.onnx"));
    [reflexivity | right; exists "vit_base"; split; reflexivity].
Defined.

(** C3 as stated fails: a supplied [model.pt] has an extension, is kept, and
    does not end with [.onnx]. *)
Lemma C3_other_extension_counterexample :
  run (post_init ckpt_dir
         (cli "./ckpt/model.pth.tar" None None (Some "model.pt")))
  = (probes_in_ckpt_dir,
     Ok (resolved_in_ckpt_dir [3; 550; 550] "onnx" "model.pt")) /\
  endswith (filename (resolved_in_ckpt_dir [3; 550; 550] "onnx" "model.pt"))
           ".onnx" = false.
Proof. split; reflexivity. Qed.

(** C4, in the form the code satisfies.  A supplied, non-empty filename without an extension
    gets [.onnx] appended; one with any extension is kept as it is. *)
Theorem C4_supplied_filename
        (fs : FileSystem) (self : RawArgs)
        (tr : list event) (r : ExportArgs) (f : string) :
  raw_filename self = Some f ->
  f <> "" ->
  run (post_init fs self) = (tr, Ok r) ->
  (snd (posixpath.splitext f) = "" -> filename r = f ++ ".onnx") /\
  (snd (posixpath.splitext f) <> "" -> filename r = f).
Proof.
  intros Hf Hne Hrun.
  rewrite (post_init_filename_supplied fs self tr r f Hf Hne Hrun).
  split; intro Hext.
  - now rewrite Hext.
  - apply truthy_true in Hext. now rewrite Hext.
Qed.

Lemma C4_supplied_filename_witness :
  raw_filename
    (cli "./ckpt/model.pth.tar" None (Some "exported") (Some "vit_base"))
  = Some "vit_base" /\
  "vit_base" <> "" /\
  run (post_init ckpt_dir
         (cli "./ckpt/model.pth.tar" None (Some "exported") (Some "vit_base")))
  = (probes_in_ckpt_dir,
     Ok (resolved_in_ckpt_dir [3; 550; 550] "exported" "vit_base.onnx")) /\
  filename (resolved_in_ckpt_dir [3; 550; 550] "exported" "vit_base.onnx")
  = "vit_base" ++ ".onnx".
Proof.
  split; [reflexivity|]. split; [discriminate|]. split; [reflexivity|].
  apply (C4_supplied_filename ckpt_dir
           (cli "./ckpt/model.pth.tar" None (Some "exported") (Some "vit_base"))
           probes_in_ckpt_dir
           (resolved_in_ckpt_dir [3; 550; 550] "exported" "vit_base.onnx")
           "vit_base");
    [reflexivity | discriminate | reflexivity | reflexivity].
Defined.

(** C4 as stated fails on the empty string: it is a supplied value without an
    extension, yet the resolved filename is not it with [.onnx] appended but
    the name derived from the checkpoint. *)
Lemma C4_empty_filename_counterexample :
  posixpath.splitext "" = ("", "") /\
  run (post_init ckpt_dir (cli "./ckpt/model.pth.tar" None None (Some "")))
  = (probes_in_ckpt_dir,
     Ok (resolved_in_ckpt_dir [3; 550; 550] "onnx" "model.pth.onnx")) /\
  filename (resolved_in_ckpt_dir [3; 550; 550] "onnx" "model.pth.onnx")
  <> "" ++ ".onnx".
Proof. split; [reflexivity|]. split; [reflexivity | discriminate]. Qed.

(** C9.  A supplied filename whose final component is a dot followed by
    dot-free text (such as [.onnx]) has no extension for [splitext], so
    [.onnx] is appended to it. *)
Theorem C9_dotfile_gets_extension
        (fs : FileSystem) (self : RawArgs)
        (tr : list event) (r : ExportArgs) (f rest : string) :
  raw_filename self = Some f ->
  posixpath.basename f = String "." rest ->
  contains rest "." = false ->
  run (post_init fs self) = (tr, Ok r) ->
  posixpath.splitext f = (f, "") /\ filename r = f ++ ".onnx".
Proof.
  intros Hf Hb Hrest Hrun.
  pose proof (splitext_dotfile f rest Hb Hrest) as Hext.
  split; [exact Hext|].
  assert (Hne : f <> "") by (intro E; rewrite E in Hb; discriminate).
  rewrite (post_init_filename_supplied fs self tr r f Hf Hne Hrun).
  now rewrite Hext.
Qed.

Lemma C9_dotfile_gets_extension_witness :
  raw_filename (cli "./ckpt/model.pth.tar" None None (Some ".onnx"))
  = Some ".onnx" /\
  posixpath.basename ".onnx" = String "." "onnx" /\
  contains "onnx" "." = false /\
  run (post_init ckpt_dir (cli "./ckpt/model.pth.tar" None None (Some ".onnx")))
  = (probes_in_ckpt_dir,
     Ok (resolved_in_ckpt_dir [3; 550; 550] "onnx" ".onnx.onnx")) /\
  posixpath.splitext ".onnx" = (".onnx", "") /\
  filename (resolved_in_ckpt_dir [3; 550; 550] "onnx" ".onnx.onnx")
  = ".onnx" ++ ".onnx".
Proof.
  split; [reflexivity|]. split; [reflexivity|]. split; [reflexivity|].
  split; [reflexivity|].
  apply (C9_dotfile_gets_extension ckpt_dir
           (cli "./ckpt/model.pth.tar" None None (Some ".onnx"))
           probes_in_ckpt_dir
           (resolved_in_ckpt_dir [3; 550; 550] "onnx" ".onnx.onnx")
           ".onnx" "onnx");
    reflexivity.
Defined.

(* ================================================================= *)
(** ** The resolver: existence checks and the derived config *)

(** C2, at a checkpoint given as a bare file name.  In a directory that
    holds both [model.pth] and its sibling [args.yaml], resolution of
    [--checkpoint model.pth] without [--config] does not find the sibling:
    [os.path.dirname] gives the empty string, the derived name is
    [/args.yaml], whose directory is the root and not the checkpoint's, and
    resolution raises. *)
Theorem C2_bare_checkpoint_looks_in_root :
  flat_dir "model.pth" = true /\
  flat_dir "args.yaml" = true /\
  posixpath.dirname (str (Path "model.pth")) = "" /\
  str (parent (Path "model.pth")) = "." /\
  str (parent (config_path (cli "model.pth" None None None))) = "/" /\
  run (post_init flat_dir (cli "model.pth" None None None))
  = ([Exists "model.pth"; Exists "/args.yaml"],
     Raise (FileNotFoundError "The config file /args.yaml does not exist.")).
Proof. repeat split. Qed.

(** C5, in the form the code satisfies.  When [Path.exists] reports the
    checkpoint as absent ([os.stat] fails with [ENOENT], [ENOTDIR], [EBADF]
    or [ELOOP], or cannot encode the name), resolution raises
    [FileNotFoundError] for the checkpoint whatever the other arguments
    are, and the checkpoint is the only path that was probed: no other
    check has run. *)
Theorem C5_missing_checkpoint_raises_first
        (fs : FileSystem) (self : RawArgs) :
  path_exists fs (Path (raw_checkpoint self)) = Ok false ->
  run (post_init fs self)
  = ([Exists (str (Path (raw_checkpoint self)))],
     Raise (FileNotFoundError
              ("The checkpoint " ++ str (Path (raw_checkpoint self))
               ++ " does not exist."))).
Proof.
  intro H. unfold run, post_init, bind, exists_, call, raise.
  now rewrite H.
Qed.

Lemma C5_missing_checkpoint_witness :
  path_exists no_files (Path "./ckpt/model.pth.tar") = Ok false /\
  run (post_init no_files
         (cli "./ckpt/model.pth.tar" (Some "missing.yaml") None None))
  = ([Exists "ckpt/model.pth.tar"],
     Raise (FileNotFoundError
              "The checkpoint ckpt/model.pth.tar does not exist.")).
Proof.
  split; [reflexivity|].
  apply (C5_missing_checkpoint_raises_first no_files
           (cli "./ckpt/model.pth.tar" (Some "missing.yaml") None None)).
  reflexivity.
Defined.

(** C5 as stated fails for a checkpoint that cannot exist because its name
    is too long: [os.stat] fails with [ENAMETOOLONG], [Path.exists] lets
    that [OSError] through, and it is what resolution raises, not a
    [FileNotFoundError]. *)
Lemma C5_long_name_counterexample :
  found (fs_with_name_limit ["ckpt/model.pth.tar"; "ckpt/args.yaml"])
        (str (Path (long_name "a"))) = false /\
  run (post_init (fs_with_name_limit ["ckpt/model.pth.tar"; "ckpt/args.yaml"])
         (cli (long_name "a") None None None))
  = ([Exists (long_name "a")],
     Raise (OSError ENAMETOOLONG (long_name "a"))).
Proof. split; vm_compute; reflexivity. Qed.

(** C6, in the form the code satisfies.  When the checkpoint exists and
    [Path.exists] reports the config path, supplied or derived, as absent,
    resolution raises [FileNotFoundError] with a message that names the
    config path, after probing the checkpoint and then the config.  A
    supplied non-empty [config] is the path itself; otherwise the path is
    derived from the checkpoint. *)
Theorem C6_missing_config_raises
        (fs : FileSystem) (self : RawArgs) :
  fs (str (Path (raw_checkpoint self))) = true ->
  path_exists fs (config_path self) = Ok false ->
  run (post_init fs self)
  = ([Exists (str (Path (raw_checkpoint self)));
      Exists (str (config_path self))],
     Raise (FileNotFoundError
              ("The config file " ++ str (config_path self)
               ++ " does not exist."))) /\
  (forall c, raw_config self = Some c -> c <> "" ->
             config_path self = Path c) /\
  (truthy_opt (raw_config self) = false ->
   config_path self
   = Path (posixpath.dirname (str (Path (raw_checkpoint self)))
           ++ "/args.yaml")).
Proof.
  intros H1 H2. split; [|split].
  - unfold run, post_init, bind, exists_, call, raise.
    rewrite (proj2 (path_exists_found _ _) H1). simpl. now rewrite H2.
  - intros c Hc Hne. unfold config_path. rewrite Hc. simpl.
    apply truthy_true in Hne. now rewrite Hne.
  - intro Hc. unfold config_path.
    destruct (raw_config self) as [c|]; simpl in *; [|reflexivity].
    now rewrite Hc.
Qed.

Lemma C6_missing_config_witness :
  fs_of ["ckpt/model.pth.tar"] (str (Path "./ckpt/model.pth.tar")) = true /\
  path_exists (fs_of ["ckpt/model.pth.tar"])
    (config_path
       (cli "./ckpt/model.pth.tar" (Some "cfg/missing.yaml") None None))
  = Ok false /\
  run (post_init (fs_of ["ckpt/model.pth.tar"])
         (cli "./ckpt/model.pth.tar" (Some "cfg/missing.yaml") None None))
  = ([Exists "ckpt/model.pth.tar"; Exists "cfg/missing.yaml"],
     Raise (FileNotFoundError
              "The config file cfg/missing.yaml does not exist.")).
Proof.
  split; [reflexivity|]. split; [reflexivity|].
  apply (C6_missing_config_raises (fs_of ["ckpt/model.pth.tar"])
           (cli "./ckpt/model.pth.tar" (Some "cfg/missing.yaml") None None));
    reflexivity.
Defined.

(** C6 as stated fails for a config that cannot exist because its name is
    too long: the checkpoint exists, [os.stat] of the config fails with
    [ENAMETOOLONG], and resolution raises that [OSError]. *)
Lemma C6_long_name_counterexample :
  found (fs_with_name_limit ["ckpt/model.pth.tar"; "ckpt/args.yaml"])
        (str (Path "./ckpt/model.pth.tar")) = true /\
  found (fs_with_name_limit ["ckpt/model.pth.tar"; "ckpt/args.yaml"])
        (str (config_path
                (cli "./ckpt/model.pth.tar" (Some (long_name "b")) None None)))
  = false /\
  run (post_init (fs_with_name_limit ["ckpt/model.pth.tar"; "ckpt/args.yaml"])
         (cli "./ckpt/model.pth.tar" (Some (long_name "b")) None None))
  = ([Exists "ckpt/model.pth.tar"; Exists (long_name "b")],
     Raise (OSError ENAMETOOLONG (long_name "b"))).
Proof. repeat split; vm_compute; reflexivity. Qed.

(* ================================================================= *)
(** ** The resolver: image shape and output directory *)

(** C7.  Whatever arguments resolve, they resolve as well, with the same
    probes, when [image_shape] is replaced by any iterable of three
    integers [c], [h], [w], of whatever sign or size; the resolved
    [image_shape] is then the tuple [(c, h, w)]. *)
Theorem C7_image_shape_tuple
        (fs : FileSystem) (self : RawArgs)
        (tr : list event) (r : ExportArgs)
        (it : iterable) (c h w : Z) :
  run (post_init fs self) = (tr, Ok r) ->
  iter it = [c; h; w] ->
  exists r',
    run (post_init fs (with_image_shape self it)) = (tr, Ok r') /\
    image_shape r' = PyTuple [c; h; w] /\
    List.length (iter (image_shape r')) = 3%nat.
Proof.
  intros Hrun Hit.
  destruct (post_init_inv fs self tr r Hrun)
    as (H1 & H2 & -> & _ & _ & _ & _ & _ & _ & _ & Hfn).
  unfold run, post_init, bind, exists_, call, lift, raise, ret.
  change (raw_checkpoint (with_image_shape self it)) with (raw_checkpoint self).
  change (config_path (with_image_shape self it)) with (config_path self).
  change (raw_filename (with_image_shape self it)) with (raw_filename self).
  rewrite (proj2 (ResolverFacts.path_exists_found _ _) H1). simpl.
  rewrite (proj2 (ResolverFacts.path_exists_found _ _) H2). simpl. rewrite Hfn.
  eexists. split; [reflexivity|]. simpl. unfold tuple. rewrite Hit.
  split; reflexivity.
Qed.

Lemma C7_image_shape_tuple_witness :
  run (post_init ckpt_dir (cli "./ckpt/model.pth.tar" None None None))
  = (probes_in_ckpt_dir,
     Ok (resolved_in_ckpt_dir [3; 550; 550] "onnx" "model.pth.onnx")) /\
  iter (PyRange 3 (-3) (-2)) = [3; 1; -1] /\
  exists r',
    run (post_init ckpt_dir
           (with_image_shape (cli "./ckpt/model.pth.tar" None None None)
              (PyRange 3 (-3) (-2))))
    = (probes_in_ckpt_dir, Ok r') /\
    image_shape r' = PyTuple [3; 1; -1] /\
    List.length (iter (image_shape r')) = 3%nat.
Proof.
  split; [reflexivity|]. split; [reflexivity|].
  apply (C7_image_shape_tuple ckpt_dir
           (cli "./ckpt/model.pth.tar" None None None)
           probes_in_ckpt_dir
           (resolved_in_ckpt_dir [3; 550; 550] "onnx" "model.pth.onnx")
           (PyRange 3 (-3) (-2)) 3 1 (-1));
    reflexivity.
Defined.

(** C8.  When resolution returns, the resolved output directory is the
    literal [onnx] if [save_dir] was absent or empty, and the supplied value
    if that was non-empty. *)
Theorem C8_output_directory
        (fs : FileSystem) (self : RawArgs)
        (tr : list event) (r : ExportArgs) :
  run (post_init fs self) = (tr, Ok r) ->
  (raw_save_dir self = None \/ raw_save_dir self = Some "" ->
   save_dir r = "onnx") /\
  (forall d, raw_save_dir self = Some d -> d <> "" -> save_dir r = d).
Proof.
  intro Hrun.
  destruct (post_init_inv fs self tr r Hrun)
    as (_ & _ & _ & _ & _ & _ & _ & _ & _ & Hdir & _).
  rewrite Hdir. split.
  - intros [-> | ->]; reflexivity.
  - intros d -> Hne. simpl. apply truthy_true in Hne. now rewrite Hne.
Qed.

Lemma C8_output_directory_witness :
  run (post_init ckpt_dir
         (cli "./ckpt/model.pth.tar" None (Some "exported") (Some "vit_base")))
  = (probes_in_ckpt_dir,
     Ok (resolved_in_ckpt_dir [3; 550; 550] "exported" "vit_base.onnx")) /\
  save_dir (resolved_in_ckpt_dir [3; 550; 550] "exported" "vit_base.onnx")
  = "exported".
Proof.
  split; [reflexivity|].
  apply (C8_output_directory ckpt_dir
           (cli "./ckpt/model.pth.tar" None (Some "exported") (Some "vit_base"))
           probes_in_ckpt_dir
           (resolved_in_ckpt_dir [3; 550; 550] "exported" "vit_base.onnx"));
    [reflexivity | reflexivity | discriminate].
Defined.

(* ================================================================= *)
(** ** The export routine *)

Section ExportFacts.

Variables Cfg Model Manager StateDict Tensor : Type.
Variable load_cfg : string -> result Cfg.
Variable create_model : Cfg -> result Model.
Variable from_yaml : option string -> result Manager.
Variable manager_apply : Manager -> Model -> result Model.
Variable torch_load : string -> result StateDict.
Variable load_state_dict : Model -> StateDict -> result Model.
Variable randn : list Z -> result Tensor.
Variable export_onnx : Model -> Tensor -> string -> bool -> result unit.

Local Abbreviation export_ :=
  (export Cfg Model Manager StateDict Tensor load_cfg create_model from_yaml
          manager_apply torch_load load_state_dict randn export_onnx).

(** Up to the recipe, [export] makes the same calls whatever the recipe is. *)
Lemma export_reaches_recipe (args : ExportArgs) (cfg : Cfg) (model : Model) :
  load_cfg (str (config args)) = Ok cfg ->
  create_model cfg = Ok model ->
  exists rest,
    fst (run (export_ args))
    = ([OpenYaml (str (config args)); CreateModel; FromYaml (recipe args)]
       ++ rest)%list /\
    (forall manager, from_yaml (recipe args) = Ok manager ->
                     exists rest', rest = Apply :: rest').
Proof.
  intros Hcfg Hmodel.
  unfold export, run, bind, call. simpl.
  rewrite Hcfg, Hmodel.
  destruct (from_yaml (recipe args)) as [manager|e].
  - destruct (manager_apply manager model) as [model1|e].
    + destruct (torch_load (str (checkpoint args))) as [sd|e].
      * destruct (load_state_dict model1 sd) as [model2|e].
        -- destruct (randn _) as [t|e]; simpl;
             eexists; (split; [reflexivity|]); intros; eauto.
        -- simpl. eexists. split; [reflexivity|]. intros; eauto.
      * simpl. eexists. split; [reflexivity|]. intros; eauto.
    + simpl. eexists. split; [reflexivity|]. intros; eauto.
  - simpl. exists []. split; [reflexivity|]. intros; discriminate.
Qed.

(** C10.  Once the configuration is loaded and the model built, [export]
    calls the recipe applier with the configuration's recipe, whatever it is
    and in particular when it is [None]: [from_yaml(args.recipe)] is the next
    call, and [manager.apply(model)] follows as soon as [from_yaml]
    returns. *)
Theorem C10_recipe_applied_unconditionally
        (args : ExportArgs) (cfg : Cfg) (model : Model) :
  load_cfg (str (config args)) = Ok cfg ->
  create_model cfg = Ok model ->
  (exists rest,
     fst (run (export_ args))
     = ([OpenYaml (str (config args)); CreateModel; FromYaml (recipe args)]
        ++ rest)%list /\
     (forall manager, from_yaml (recipe args) = Ok manager ->
                      exists rest', rest = Apply :: rest')) /\
  (recipe args = None -> In (FromYaml None) (fst (run (export_ args)))).
Proof.
  intros Hcfg Hmodel.
  destruct (export_reaches_recipe args cfg model Hcfg Hmodel)
    as [rest [Htr Happly]].
  split; [eauto|].
  intro Hnone. rewrite Htr, Hnone. simpl. auto.
Qed.

End ExportFacts.

Lemma C10_recipe_applied_witness :
  (fun _ : string => Ok tt)
    (str (config (resolved_in_ckpt_dir [3; 550; 550] "onnx" "model.pth.onnx")))
  = Ok tt /\
  (fun _ : unit => Ok tt) tt = Ok tt /\
  In (FromYaml None)
     (fst (run (export unit unit unit unit unit
                  (fun _ => Ok tt) (fun _ => Ok tt) (fun _ => Ok tt)
                  (fun _ _ => Ok tt) (fun _ => Ok tt) (fun _ _ => Ok tt)
                  (fun _ => Ok tt) (fun _ _ _ _ => Ok tt)
                  (resolved_in_ckpt_dir [3; 550; 550] "onnx"
                     "model.pth.onnx")))).
Proof.
  split; [reflexivity|]. split; [reflexivity|].
  apply (C10_recipe_applied_unconditionally unit unit unit unit unit
           (fun _ => Ok tt) (fun _ => Ok tt) (fun _ => Ok tt)
           (fun _ _ => Ok tt) (fun _ => Ok tt) (fun _ _ => Ok tt)
           (fun _ => Ok tt) (fun _ _ _ _ => Ok tt)
           (resolved_in_ckpt_dir [3; 550; 550] "onnx" "model.pth.onnx")
           tt tt);
    reflexivity.
Defined.

(* ================================================================= *)
(** ** More on strings: concatenation, slices, stripping *)

Module StrFacts.
Import PyStr PyStrFacts.

Lemma app_nil_r (s : string) : s ++ "" = s.
Proof. induction s; simpl; congruence. Qed.

Lemma app_assoc (s t u : string) : (s ++ t) ++ u = s ++ (t ++ u).
Proof. induction s; simpl; congruence. Qed.

Lemma length_app (s t : string) :
  String.length (s ++ t) = (String.length s + String.length t)%nat.
Proof. induction s; simpl; congruence. Qed.

Lemma len_app (s t : string) : len (s ++ t) = len s + len t.
Proof. unfold len. rewrite length_app. lia. Qed.

Lemma take_app (s t : string) : take (String.length s) (s ++ t) = s.
Proof. induction s; simpl; [now destruct t | congruence]. Qed.

Lemma drop_app (s t : string) : drop (String.length s) (s ++ t) = t.
Proof. induction s; simpl; [now destruct t | congruence]. Qed.

Lemma contains_rfind (s : string) (c : ascii) :
  contains s c = true <-> 0 <= rfind s c.
Proof.
  pose proof (rfind_absent s c) as H. pose proof (rfind_ge s c).
  destruct (contains s c); split; intro E; try reflexivity; try discriminate.
  - destruct (Z.eq_dec (rfind s c) (-1)) as [E1|E1]; [|lia].
    apply H in E1. discriminate.
  - assert (rfind s c = -1) by now apply H. lia.
Qed.

Lemma contains_app (s t : string) (c : ascii) :
  contains (s ++ t) c = contains s c || contains t c.
Proof.
  induction s as [|a s IH]; simpl; [reflexivity|].
  now rewrite IH, orb_assoc.
Qed.

(** The one-character slice at the seam of a concatenation. *)
Lemma slice_seam (pre b : string) (a : ascii) :
  slice (pre ++ String a b) (len pre) (len pre + 1) = String a "".
Proof.
  unfold slice.
  pose proof (len_nonneg pre). pose proof (len_nonneg b).
  assert (L : len (pre ++ String a b) = len pre + len b + 1)
    by (rewrite len_app, len_cons; lia).
  rewrite !bound_in_range by lia.
  replace (Z.to_nat (len pre)) with (String.length pre) by (unfold len; lia).
  replace (Z.to_nat (len pre + 1) - String.length pre)%nat with 1%nat
    by (unfold len; lia).
  now rewrite drop_app.
Qed.

(** What follows the last occurrence of a character. *)
Lemma drop_rfind (s : string) (c : ascii) :
  0 <= rfind s c ->
  exists rest, drop (Z.to_nat (rfind s c)) s = String c rest
               /\ contains rest c = false.
Proof.
  induction s as [|a s IH]; simpl; [lia|].
  pose proof (rfind_ge s c).
  destruct (Z.leb_spec 0 (rfind s c)) as [Hr|Hr].
  - intros _. destruct (IH Hr) as [rest [E Hrest]].
    exists rest. split; [|exact Hrest].
    replace (Z.to_nat (rfind s c + 1)) with (S (Z.to_nat (rfind s c))) by lia.
    exact E.
  - destruct (Ascii.eqb_spec a c) as [->|Hac]; [|lia].
    intros _. exists s. split; [reflexivity|].
    apply rfind_absent. lia.
Qed.

(** Nothing after an index beyond the last occurrence holds the character. *)
Lemma drop_beyond_rfind (s : string) (c : ascii) (n : nat) :
  rfind s c < Z.of_nat n -> contains (drop n s) c = false.
Proof.
  intro H.
  destruct (Nat.le_gt_cases n (String.length s)) as [Hn|Hn].
  - pose proof (rfind_app (take n s) (drop n s) c) as E.
    rewrite take_drop in E.
    destruct (Z.leb_spec 0 (rfind (drop n s) c)) as [Hd|Hd].
    + unfold len in E. rewrite length_take in E by exact Hn. lia.
    + apply rfind_absent. pose proof (rfind_ge (drop n s) c). lia.
  - assert (E : drop n s = "").
    { pose proof (length_drop n s) as L.
      destruct (drop n s); [reflexivity|simpl in L; lia]. }
    now rewrite E.
Qed.

Lemma startswith_app (s t : string) : startswith (s ++ t) s = true.
Proof.
  induction s as [|a s IH]; simpl; [now destruct t|].
  now rewrite Ascii.eqb_refl.
Qed.

Lemma endswith_app_r (s t u : string) :
  endswith t u = true -> endswith (s ++ t) u = true.
Proof.
  intro H. induction s as [|a s IH]; simpl; [exact H|].
  rewrite IH. apply orb_true_r.
Qed.

End StrFacts.

(* ================================================================= *)
(** ** [posixpath.splitext] *)

Module SplitextFacts.
Import PyStr PyStrFacts StrFacts.

(** The loop of [splitext] over the final component [b] of [pre ++ b],
    started at its first character and bounded by its last dot: it cuts at
    that dot exactly when [b], its leading dots skipped, still has a dot. *)
Lemma splitext_loop_spec (b pre : string) :
  0 <= rfind b "." ->
  posixpath.splitext_loop (pre ++ b) (len pre + rfind b ".") (len pre)
    (Z.to_nat (rfind b "."))
  = if contains (lstrip b ".") "."
    then (slice_to (pre ++ b) (len pre + rfind b "."),
          slice_from (pre ++ b) (len pre + rfind b "."))
    else (pre ++ b, "").
Proof.
  revert pre. induction b as [|a b IH]; intros pre; [simpl; lia|].
  pose proof (rfind_ge b ".") as Hge.
  cbn [rfind lstrip].
  destruct (Z.leb_spec 0 (rfind b ".")) as [Hr|Hr].
  - intros _.
    replace (Z.to_nat (rfind b "." + 1)) with (S (Z.to_nat (rfind b ".")))
      by lia.
    cbn [posixpath.splitext_loop].
    destruct (Z.ltb_spec (len pre) (len pre + (rfind b "." + 1))); [|lia].
    rewrite slice_seam. unfold posixpath.extsep.
    destruct (Ascii.eqb_spec a ".") as [->|Ha].
    + simpl (negb _). cbv iota.
      specialize (IH (pre ++ ".") Hr).
      rewrite app_assoc, len_app in IH. simpl (String "." "" ++ b) in IH.
      change (len ".") with 1 in IH.
      replace (len pre + 1 + rfind b ".") with (len pre + (rfind b "." + 1))
        in IH by lia.
      exact IH.
    + assert (E : (String a "" =? String "." "")%string = false).
      { apply String.eqb_neq. congruence. }
      rewrite E. simpl (negb false). cbv iota.
      cbn [contains].
      assert (C : contains b "." = true) by now apply contains_rfind.
      rewrite C, orb_true_r. reflexivity.
  - destruct (Ascii.eqb_spec a ".") as [->|Ha]; [|lia].
    intros _. simpl (Z.to_nat 0). cbn [posixpath.splitext_loop].
    rewrite slice_to_0.
    assert (C : contains b "." = false) by (apply rfind_absent; lia).
    assert (L : contains (lstrip b ".") "." = false).
    { clear - C. induction b as [|x b IH]; simpl in *; [reflexivity|].
      apply orb_false_iff in C. destruct C as [Cx Cb].
      rewrite Cx. simpl. now rewrite Cx, Cb. }
    now rewrite L.
Qed.

(** A path is its part up to the last slash followed by its final
    component, which has no slash. *)
Lemma basename_split (p : string) :
  let n := Z.to_nat (rfind p posixpath.sep + 1) in
  p = take n p ++ posixpath.basename p /\
  len (take n p) = rfind p posixpath.sep + 1 /\
  contains (posixpath.basename p) posixpath.sep = false.
Proof.
  intro n. unfold posixpath.basename, slice_from.
  pose proof (rfind_ge p posixpath.sep) as Hge.
  pose proof (rfind_lt p posixpath.sep) as Hlt.
  rewrite bound_in_range by lia. fold n.
  split; [now rewrite take_drop|]. split.
  - unfold len. rewrite length_take by (unfold n, len in *; lia).
    unfold n. lia.
  - apply drop_beyond_rfind. unfold n. lia.
Qed.

(** [splitext] cuts at the last dot of the path exactly when the final
    component, its leading dots skipped, contains a dot; otherwise the
    extension is empty. *)
Lemma splitext_spec (p : string) :
  posixpath.splitext p
  = if contains (lstrip (posixpath.basename p) ".") "."
    then (slice_to p (rfind p "."), slice_from p (rfind p "."))
    else (p, "").
Proof.
  destruct (basename_split p) as (Hp & Hlen & Hsep).
  set (pre := take (Z.to_nat (rfind p posixpath.sep + 1)) p) in *.
  set (b := posixpath.basename p) in *.
  pose proof (rfind_ge b ".") as Hge.
  pose proof (rfind_lt pre ".") as Hpre.
  assert (Hdot : rfind p "." =
                 if 0 <=? rfind b "." then len pre + rfind b "."
                 else rfind pre ".").
  { rewrite Hp at 1. apply rfind_app. }
  unfold posixpath.splitext, posixpath.extsep.
  destruct (Z.leb_spec 0 (rfind b ".")) as [Hb|Hb].
  - rewrite Hdot.
    destruct (Z.ltb_spec (rfind p posixpath.sep) (len pre + rfind b "."));
      [|lia].
    replace (len pre + rfind b "." - (rfind p posixpath.sep + 1))
      with (rfind b ".") by lia.
    rewrite <- Hlen. rewrite Hp at 1.
    rewrite (splitext_loop_spec b pre Hb). rewrite <- Hp. reflexivity.
  - rewrite Hdot.
    destruct (Z.ltb_spec (rfind p posixpath.sep) (rfind pre ".")); [lia|].
    rewrite slice_to_0.
    assert (C : contains b "." = false) by (apply rfind_absent; lia).
    assert (L : contains (lstrip b ".") "." = false).
    { clear - C. induction b as [|x b IH]; simpl in *; [reflexivity|].
      apply orb_false_iff in C. destruct C as [Cx Cb].
      rewrite Cx. simpl. now rewrite Cx, Cb. }
    now rewrite L.
Qed.

End SplitextFacts.

Module SplitextProps.
Import PyStr PyStrFacts StrFacts SplitextFacts.

Lemma contains_lstrip (s : string) (c d : ascii) :
  contains (lstrip s c) d = true -> contains s d = true.
Proof.
  induction s as [|a s IH]; simpl; [discriminate|].
  destruct (a =? c)%char.
  - intro H. rewrite (IH H). apply orb_true_r.
  - simpl. tauto.
Qed.

(** When [splitext] cuts, it cuts at a dot that lies after the last slash. *)
Lemma splitext_cut_position (p : string) :
  contains (lstrip (posixpath.basename p) ".") "." = true ->
  rfind p posixpath.sep < rfind p "." /\ 0 <= rfind p ".".
Proof.
  intro H. apply contains_lstrip in H. apply contains_rfind in H.
  destruct (basename_split p) as (Hp & Hlen & _).
  pose proof (rfind_app (take (Z.to_nat (rfind p posixpath.sep + 1)) p)
                (posixpath.basename p) ".") as E.
  rewrite <- Hp in E.
  destruct (Z.leb_spec 0 (rfind (posixpath.basename p) ".")); [|lia].
  pose proof (rfind_ge p posixpath.sep). lia.
Qed.

(** X1.  [splitext] loses nothing: root and extension concatenate to the
    path. *)
Theorem X1_splitext_concat (p : string) :
  fst (posixpath.splitext p) ++ snd (posixpath.splitext p) = p.
Proof.
  rewrite splitext_spec.
  destruct (contains (lstrip (posixpath.basename p) ".") "."); simpl.
  - unfold slice_to, slice_from. apply take_drop.
  - apply app_nil_r.
Qed.

(** X2.  The extension [splitext] returns is empty, or a dot followed by
    text that holds neither a dot nor a slash. *)
Theorem X2_splitext_extension_shape (p : string) :
  snd (posixpath.splitext p) = "" \/
  exists rest,
    snd (posixpath.splitext p) = String "." rest /\
    contains rest "." = false /\
    contains rest posixpath.sep = false.
Proof.
  rewrite splitext_spec.
  destruct (contains (lstrip (posixpath.basename p) ".") ".") eqn:C; simpl;
    [right|now left].
  destruct (splitext_cut_position p C) as [Hsep Hdot].
  pose proof (rfind_lt p ".") as Hlt.
  unfold slice_from. rewrite bound_in_range by lia.
  destruct (drop_rfind p "." Hdot) as [rest [E Hrest]].
  exists rest. split; [exact E|]. split; [exact Hrest|].
  pose proof (drop_beyond_rfind p posixpath.sep (Z.to_nat (rfind p ".")))
    as B.
  rewrite E in B. simpl in B.
  assert (B' : (false || contains rest posixpath.sep)%bool = false)
    by (apply B; lia).
  exact B'.
Qed.

(** A path without any dot has no extension. *)
Lemma splitext_no_dot (p : string) :
  contains p "." = false -> posixpath.splitext p = (p, "").
Proof.
  intro H. rewrite splitext_spec.
  destruct (contains (lstrip (posixpath.basename p) ".") ".") eqn:C;
    [|reflexivity].
  destruct (splitext_cut_position p C) as [_ Hdot].
  apply contains_rfind in Hdot. congruence.
Qed.

End SplitextProps.

(* ================================================================= *)
(** ** The resolver: outcomes and invariants *)

Module ResolverProps.
Import PyStr PyStrFacts StrFacts SplitextFacts SplitextProps PathFacts
       ResolverFacts.

Lemma app_not_empty_r (s t : string) : t <> "" -> s ++ t <> "".
Proof. intros Ht E. destruct s; simpl in E; [contradiction|discriminate]. Qed.

(** The extension is not empty when [splitext] cuts. *)
Lemma splitext_cut_truthy (p : string) :
  contains (lstrip (posixpath.basename p) ".") "." = true ->
  truthy (snd (posixpath.splitext p)) = true.
Proof.
  intro C. rewrite splitext_spec, C. simpl.
  destruct (splitext_cut_position p C) as [_ Hdot].
  pose proof (rfind_lt p ".").
  unfold slice_from. rewrite bound_in_range by lia.
  destruct (drop_rfind p "." Hdot) as [rest [-> _]]. reflexivity.
Qed.

(** The filename block fails only for want of a final component. *)
Lemma resolve_filename_raises (ckpt : PurePath) (f : option string) (e : exn) :
  resolve_filename ckpt f = Raise e ->
  truthy_opt f = false /\ name ckpt = "" /\
  e = ValueError ("PosixPath(" ++ repr (str ckpt) ++ ") has an empty name").
Proof.
  unfold resolve_filename.
  destruct (truthy_opt f) eqn:T.
  - destruct (posixpath.splitext (or_else f "")) as [h x].
    destruct (negb (truthy x)); discriminate.
  - destruct (with_suffix_onnx ckpt) as [[Hn _]|[_ [q [-> _]]]];
      [|discriminate].
    unfold with_suffix. simpl (contains _ _). cbv iota.
    simpl (truthy ".onnx" && _ || _). cbv iota.
    rewrite Hn. simpl. intro E. injection E as <-. auto.
Qed.

(** X4.  Resolution returns exactly when the checkpoint exists, the config
    path exists, and a filename can be had: one was supplied, or the
    checkpoint path has a final component. *)
Theorem X4_post_init_returns_iff (fs : FileSystem) (self : RawArgs) :
  (exists tr r, run (post_init fs self) = (tr, Ok r)) <->
  fs (str (Path (raw_checkpoint self))) = true /\
  fs (str (config_path self)) = true /\
  (truthy_opt (raw_filename self) = true
   \/ name (Path (raw_checkpoint self)) <> "").
Proof.
  split.
  - intros (tr & r & Hrun).
    destruct (post_init_inv fs self tr r Hrun)
      as (H1 & H2 & _ & _ & _ & _ & _ & _ & _ & _ & Hfn).
    split; [exact H1|]. split; [exact H2|].
    destruct (truthy_opt (raw_filename self)) eqn:T; [now left|right].
    now destruct (resolve_filename_absent _ _ _ T Hfn).
  - intros (H1 & H2 & H3).
    destruct (post_init_returns fs self H1 H2 H3) as [r Hr]. eauto.
Qed.

(** X5.  A third way to fail: when both files exist, no filename is
    supplied and the checkpoint path has no final component (it is [.], [/]
    or the like), resolution raises [ValueError] after both probes. *)
Theorem X5_post_init_empty_name (fs : FileSystem) (self : RawArgs) :
  fs (str (Path (raw_checkpoint self))) = true ->
  fs (str (config_path self)) = true ->
  truthy_opt (raw_filename self) = false ->
  name (Path (raw_checkpoint self)) = "" ->
  run (post_init fs self)
  = ([Exists (str (Path (raw_checkpoint self)));
      Exists (str (config_path self))],
     Raise (ValueError
              ("PosixPath(" ++ repr (str (Path (raw_checkpoint self)))
               ++ ") has an empty name"))).
Proof.
  intros H1 H2 T Hn.
  unfold run, post_init, bind, exists_, call, lift, raise, ret.
  rewrite (proj2 (ResolverFacts.path_exists_found _ _) H1). simpl.
  rewrite (proj2 (ResolverFacts.path_exists_found _ _) H2). simpl.
  destruct (resolve_filename (Path (raw_checkpoint self)) (raw_filename self))
    as [fn|e] eqn:E.
  - destruct (resolve_filename_absent _ _ _ T E) as [Hne _]. contradiction.
  - now destruct (resolve_filename_raises _ _ _ E) as (_ & _ & ->).
Qed.

Lemma X5_post_init_empty_name_witness :
  fs_of ["."; "/args.yaml"] (str (Path ".")) = true /\
  fs_of ["."; "/args.yaml"] (str (config_path (cli "." None None None)))
  = true /\
  truthy_opt (raw_filename (cli "." None None None)) = false /\
  name (Path ".") = "" /\
  run (post_init (fs_of ["."; "/args.yaml"]) (cli "." None None None))
  = ([Exists "."; Exists "/args.yaml"],
     Raise (ValueError "PosixPath('.') has an empty name")).
Proof.
  split; [reflexivity|]. split; [reflexivity|]. split; [reflexivity|].
  split; [reflexivity|].
  apply (X5_post_init_empty_name (fs_of ["."; "/args.yaml"])
           (cli "." None None None)); reflexivity.
Defined.

(** X6.  Every failure of resolution is one of five.  After one probe:
    [Path.exists] reports the checkpoint as absent and [FileNotFoundError]
    is raised, or [os.stat] of the checkpoint fails with an errno that
    [Path.exists] does not ignore and that [OSError] is raised.  After two
    probes: the same two for the config, or [ValueError] because the
    checkpoint path has no final component from which to derive the absent
    filename. *)
Theorem X6_post_init_failures (fs : FileSystem) (self : RawArgs)
        (tr : list event) (e : exn) :
  run (post_init fs self) = (tr, Raise e) ->
  (path_exists fs (Path (raw_checkpoint self)) = Ok false /\
   tr = [Exists (str (Path (raw_checkpoint self)))] /\
   e = FileNotFoundError
         ("The checkpoint " ++ str (Path (raw_checkpoint self))
          ++ " does not exist.")) \/
  (fs (str (Path (raw_checkpoint self))) = false /\
   tr = [Exists (str (Path (raw_checkpoint self)))] /\
   exists errno,
     failure fs (str (Path (raw_checkpoint self))) = StatOSError errno /\
     ignore_error errno = false /\
     e = OSError errno (str (Path (raw_checkpoint self)))) \/
  (fs (str (Path (raw_checkpoint self))) = true /\
   path_exists fs (config_path self) = Ok false /\
   tr = [Exists (str (Path (raw_checkpoint self)));
         Exists (str (config_path self))] /\
   e = FileNotFoundError
         ("The config file " ++ str (config_path self)
          ++ " does not exist.")) \/
  (fs (str (Path (raw_checkpoint self))) = true /\
   fs (str (config_path self)) = false /\
   tr = [Exists (str (Path (raw_checkpoint self)));
         Exists (str (config_path self))] /\
   exists errno,
     failure fs (str (config_path self)) = StatOSError errno /\
     ignore_error errno = false /\
     e = OSError errno (str (config_path self))) \/
  (fs (str (Path (raw_checkpoint self))) = true /\
   fs (str (config_path self)) = true /\
   truthy_opt (raw_filename self) = false /\
   name (Path (raw_checkpoint self)) = "" /\
   tr = [Exists (str (Path (raw_checkpoint self)));
         Exists (str (config_path self))] /\
   exists msg, e = ValueError msg).
Proof.
  unfold run, post_init, bind, exists_, call, lift, raise, ret.
  destruct (path_exists_cases fs (Path (raw_checkpoint self)))
    as [[H1 E1]|[[H1 E1]|[H1 (n1 & F1 & I1 & E1)]]].
  - rewrite E1. simpl.
    destruct (path_exists_cases fs (config_path self))
      as [[H2 E2]|[[H2 E2]|[H2 (n2 & F2 & I2 & E2)]]].
    + rewrite E2. simpl.
      destruct (resolve_filename _ _) as [fn|e'] eqn:E; [discriminate|].
      intro R. injection R as <- <-.
      destruct (resolve_filename_raises _ _ _ E) as (T & Hn & ->).
      do 4 right. repeat split; eauto.
    + rewrite E2. simpl. intro R. injection R as <- <-.
      do 2 right. left. auto.
    + rewrite E2. simpl. intro R. injection R as <- <-.
      do 3 right. left. eauto 8.
  - rewrite E1. simpl. intro R. injection R as <- <-.
    left. auto.
  - rewrite E1. simpl. intro R. injection R as <- <-.
    right. left. eauto 8.
Qed.

Lemma X6_post_init_failures_witness :
  run (post_init flat_dir (cli "model.pth" (Some "cfg.yaml") None None))
  = ([Exists "model.pth"; Exists "cfg.yaml"],
     Raise (FileNotFoundError "The config file cfg.yaml does not exist.")) /\
  path_exists flat_dir
    (config_path (cli "model.pth" (Some "cfg.yaml") None None))
  = Ok false.
Proof.
  split; [reflexivity|].
  destruct (X6_post_init_failures flat_dir
              (cli "model.pth" (Some "cfg.yaml") None None)
              [Exists "model.pth"; Exists "cfg.yaml"]
              (FileNotFoundError "The config file cfg.yaml does not exist.")
              eq_refl)
    as [(_ & H & _)|[(_ & H & _)|[(_ & H & _)|[(_ & _ & _ & n & _ & _ & H)
                                              |(_ & _ & _ & _ & _ & m & H)]]]].
  - discriminate H.
  - discriminate H.
  - exact H.
  - discriminate H.
  - discriminate H.
Defined.

(** X7.  After resolution neither the output directory nor the output
    filename is empty. *)
Theorem X7_resolved_names_not_empty (fs : FileSystem) (self : RawArgs)
        (tr : list event) (r : ExportArgs) :
  run (post_init fs self) = (tr, Ok r) ->
  save_dir r <> "" /\ filename r <> "".
Proof.
  intro Hrun.
  destruct (post_init_inv fs self tr r Hrun)
    as (_ & _ & _ & _ & _ & _ & _ & _ & _ & Hdir & Hfn).
  split.
  - rewrite Hdir. destruct (raw_save_dir self) as [d|]; simpl;
      [|discriminate].
    destruct (truthy d) eqn:T; [now apply truthy_true|discriminate].
  - destruct (truthy_opt (raw_filename self)) eqn:T.
    + destruct (raw_filename self) as [f|]; [|discriminate].
      simpl in T. apply truthy_true in T.
      rewrite (resolve_filename_supplied _ f T) in Hfn.
      injection Hfn as <-.
      destruct (truthy (snd (posixpath.splitext f))); [exact T|].
      apply app_not_empty_r. discriminate.
    + destruct (resolve_filename_absent _ _ _ T Hfn) as [_ ->].
      apply app_not_empty_r. discriminate.
Qed.

Lemma X7_resolved_names_not_empty_witness :
  run (post_init ckpt_dir (cli "./ckpt/model.pth.tar" None (Some "") (Some "")))
  = (probes_in_ckpt_dir,
     Ok (resolved_in_ckpt_dir [3; 550; 550] "onnx" "model.pth.onnx")) /\
  save_dir (resolved_in_ckpt_dir [3; 550; 550] "onnx" "model.pth.onnx") <> "" /\
  filename (resolved_in_ckpt_dir [3; 550; 550] "onnx" "model.pth.onnx") <> "".
Proof.
  split; [reflexivity|].
  apply (X7_resolved_names_not_empty ckpt_dir
           (cli "./ckpt/model.pth.tar" None (Some "") (Some ""))
           probes_in_ckpt_dir
           (resolved_in_ckpt_dir [3; 550; 550] "onnx" "model.pth.onnx")).
  reflexivity.
Defined.

End ResolverProps.

Module ResolverRules.
Import PyStr PyStrFacts StrFacts SplitextFacts SplitextProps PathFacts
       ResolverFacts ResolverProps.

(** X8.  The recipe, the QAT flag and the batch size play no part in
    resolution: with any other values for them the same arguments resolve
    with the same probes, and the three are stored as given (a batch size
    of zero or less included). *)
Theorem X8_untouched_fields (fs : FileSystem) (self : RawArgs)
        (tr : list event) (r : ExportArgs)
        (rc : option string) (q : bool) (b : Z) :
  run (post_init fs self) = (tr, Ok r) ->
  exists r',
    run (post_init fs (with_untouched self rc q b)) = (tr, Ok r') /\
    recipe r' = rc /\ no_qat_conv r' = q /\ batch_size r' = b /\
    checkpoint r' = checkpoint r /\ config r' = config r /\
    image_shape r' = image_shape r /\
    save_dir r' = save_dir r /\ filename r' = filename r.
Proof.
  intro Hrun.
  destruct (post_init_inv fs self tr r Hrun)
    as (H1 & H2 & -> & Hc & Hg & _ & _ & _ & Hs & Hd & Hfn).
  unfold run, post_init, bind, exists_, call, lift, raise, ret.
  change (raw_checkpoint (with_untouched self rc q b))
    with (raw_checkpoint self).
  change (config_path (with_untouched self rc q b)) with (config_path self).
  change (raw_filename (with_untouched self rc q b)) with (raw_filename self).
  rewrite (proj2 (ResolverFacts.path_exists_found _ _) H1). simpl.
  rewrite (proj2 (ResolverFacts.path_exists_found _ _) H2). simpl. rewrite Hfn.
  eexists. split; [reflexivity|]. simpl.
  rewrite Hc, Hg, Hs, Hd. repeat split.
  destruct (raw_save_dir self) as [d|]; simpl; [|reflexivity].
  now destruct (truthy d).
Qed.

Lemma X8_untouched_fields_witness :
  run (post_init ckpt_dir (cli "./ckpt/model.pth.tar" None None None))
  = (probes_in_ckpt_dir,
     Ok (resolved_in_ckpt_dir [3; 550; 550] "onnx" "model.pth.onnx")) /\
  exists r',
    run (post_init ckpt_dir
           (with_untouched (cli "./ckpt/model.pth.tar" None None None)
              (Some "zoo:recipe") true (-4)))
    = (probes_in_ckpt_dir, Ok r') /\
    recipe r' = Some "zoo:recipe" /\ no_qat_conv r' = true /\
    batch_size r' = -4.
Proof.
  split; [reflexivity|].
  destruct (X8_untouched_fields ckpt_dir
              (cli "./ckpt/model.pth.tar" None None None)
              probes_in_ckpt_dir
              (resolved_in_ckpt_dir [3; 550; 550] "onnx" "model.pth.onnx")
              (Some "zoo:recipe") true (-4) eq_refl)
    as (r' & Hr & H1 & H2 & H3 & _).
  exists r'. auto.
Defined.

(** X9.  The rule for a supplied filename, read off its text: it is kept
    when its final component, leading dots aside, contains a dot, and gets
    [.onnx] appended otherwise. *)
Theorem X9_supplied_filename_rule (fs : FileSystem) (self : RawArgs)
        (tr : list event) (r : ExportArgs) (f : string) :
  raw_filename self = Some f ->
  f <> "" ->
  run (post_init fs self) = (tr, Ok r) ->
  filename r
  = if contains (lstrip (posixpath.basename f) ".") "." then f
    else f ++ ".onnx".
Proof.
  intros Hf Hne Hrun.
  rewrite (post_init_filename_supplied fs self tr r f Hf Hne Hrun).
  destruct (contains (lstrip (posixpath.basename f) ".") ".") eqn:C.
  - now rewrite (splitext_cut_truthy f C).
  - now rewrite splitext_spec, C.
Qed.

Lemma X9_supplied_filename_rule_witness :
  raw_filename (cli "./ckpt/model.pth.tar" None None (Some "out/..vit"))
  = Some "out/..vit" /\
  "out/..vit" <> "" /\
  run (post_init ckpt_dir
         (cli "./ckpt/model.pth.tar" None None (Some "out/..vit")))
  = (probes_in_ckpt_dir,
     Ok (resolved_in_ckpt_dir [3; 550; 550] "onnx" "out/..vit.onnx")) /\
  filename (resolved_in_ckpt_dir [3; 550; 550] "onnx" "out/..vit.onnx")
  = "out/..vit" ++ ".onnx".
Proof.
  split; [reflexivity|]. split; [discriminate|]. split; [reflexivity|].
  apply (X9_supplied_filename_rule ckpt_dir
           (cli "./ckpt/model.pth.tar" None None (Some "out/..vit"))
           probes_in_ckpt_dir
           (resolved_in_ckpt_dir [3; 550; 550] "onnx" "out/..vit.onnx")
           "out/..vit");
    [reflexivity | discriminate | reflexivity].
Defined.

(** X10.  For every checkpoint given without a slash that exists, and no
    [config], the second probe is [/args.yaml] in the root directory. *)
Theorem X10_bare_checkpoint_probes_root (fs : FileSystem)
        (self : RawArgs) :
  contains (raw_checkpoint self) "/" = false ->
  truthy_opt (raw_config self) = false ->
  fs (str (Path (raw_checkpoint self))) = true ->
  exists rest,
    fst (run (post_init fs self))
    = ([Exists (str (Path (raw_checkpoint self))); Exists "/args.yaml"]
       ++ rest)%list.
Proof.
  intros Hc Hcfg H1.
  pose proof (config_path_bare self Hc Hcfg) as E.
  unfold run, post_init, bind, exists_, call, lift, raise, ret.
  rewrite (proj2 (path_exists_found _ _) H1), E. cbn [negb].
  destruct (path_exists fs (Path "/args.yaml")) as [[|]|e];
    cbn [negb fst app].
  - destruct (resolve_filename _ _); exists []; reflexivity.
  - exists []. reflexivity.
  - exists []. reflexivity.
Qed.

Lemma X10_bare_checkpoint_probes_root_witness :
  contains (raw_checkpoint (cli "model.pth" None None None)) "/" = false /\
  truthy_opt (raw_config (cli "model.pth" None None None)) = false /\
  flat_dir (str (Path "model.pth")) = true /\
  exists rest,
    fst (run (post_init flat_dir (cli "model.pth" None None None)))
    = ([Exists "model.pth"; Exists "/args.yaml"] ++ rest)%list.
Proof.
  split; [reflexivity|]. split; [reflexivity|]. split; [reflexivity|].
  apply (X10_bare_checkpoint_probes_root flat_dir
           (cli "model.pth" None None None)); reflexivity.
Defined.

End ResolverRules.

(* ================================================================= *)
(** ** [posixpath.dirname] and the derived config *)

Module DirnameFacts.
Import PyStr PyStrFacts StrFacts ResolverFacts.

Lemma rstrip_snoc (s : string) (c : ascii) :
  rstrip (s ++ String c "") c = rstrip s c.
Proof.
  induction s as [|a s IH]; simpl.
  - now rewrite Ascii.eqb_refl.
  - now rewrite IH.
Qed.

Lemma rstrip_keep (s : string) (c : ascii) :
  s <> "" -> endswith s (String c "") = false -> rstrip s c = s.
Proof.
  induction s as [|a s IH]; [congruence|].
  intros _ H. cbn [endswith] in H. apply orb_false_iff in H.
  destruct H as [Hhead Htail]. cbn [rstrip].
  destruct s as [|b s].
  - simpl. destruct (Ascii.eqb_spec a c) as [->|Hac]; [|reflexivity].
    now rewrite String.eqb_refl in Hhead.
  - rewrite IH by (congruence || exact Htail). reflexivity.
Qed.

Lemma rstrip_repeat (c : ascii) (k : nat) :
  rstrip (repeat (String c "") k) c = "".
Proof.
  induction k as [|k IH]; [reflexivity|].
  simpl. rewrite IH. simpl. now rewrite Ascii.eqb_refl.
Qed.

(** The directory of [d/n] is [d], for a [d] that does not end in a slash
    and an [n] without one. *)
Lemma dirname_of_joined (d n : string) :
  d <> "" ->
  endswith d "/" = false ->
  contains n posixpath.sep = false ->
  posixpath.dirname (d ++ "/" ++ n) = d.
Proof.
  intros Hd Hend Hn. unfold posixpath.dirname.
  assert (Hr : rfind (d ++ "/" ++ n) posixpath.sep = len d).
  { rewrite rfind_app. apply rfind_absent in Hn.
    simpl. unfold posixpath.sep in *. rewrite Hn. simpl. lia. }
  rewrite Hr.
  assert (Hhead : slice_to (d ++ "/" ++ n) (len d + 1) = d ++ "/").
  { unfold slice_to.
    pose proof (len_nonneg d). pose proof (len_nonneg n).
    rewrite bound_in_range
      by (rewrite len_app; simpl (len ("/" ++ n)); rewrite len_cons; lia).
    replace (d ++ "/" ++ n) with ((d ++ "/") ++ n)
      by (rewrite app_assoc; reflexivity).
    replace (Z.to_nat (len d + 1)) with (String.length (d ++ "/"))
      by (rewrite length_app; unfold len; simpl; lia).
    apply take_app. }
  rewrite Hhead.
  assert (Hstrip : rstrip (d ++ "/") posixpath.sep = d).
  { unfold posixpath.sep. rewrite rstrip_snoc. now apply rstrip_keep. }
  assert (Htruthy : truthy (d ++ "/") = true).
  { apply truthy_true. destruct d; discriminate. }
  rewrite Htruthy. simpl.
  destruct (String.eqb_spec (d ++ "/")
              (repeat (String posixpath.sep "") (String.length (d ++ "/"))))
    as [E|E]; simpl; [|exact Hstrip].
  exfalso. rewrite E in Hstrip. rewrite rstrip_repeat in Hstrip.
  congruence.
Qed.

(** X11.  For a checkpoint whose normalised path is [d/n], with [n] its
    final component, and no [config], the config path is [d/args.yaml], the
    sibling of the checkpoint. *)
Theorem X11_config_is_sibling (self : RawArgs) (d n : string) :
  str (Path (raw_checkpoint self)) = d ++ "/" ++ n ->
  d <> "" ->
  endswith d "/" = false ->
  contains n "/" = false ->
  truthy_opt (raw_config self) = false ->
  posixpath.dirname (str (Path (raw_checkpoint self))) = d /\
  config_path self = Path (d ++ "/args.yaml").
Proof.
  intros Hs Hd Hend Hn Hcfg.
  assert (E : posixpath.dirname (str (Path (raw_checkpoint self))) = d)
    by (rewrite Hs; now apply dirname_of_joined).
  split; [exact E|].
  unfold config_path. rewrite E.
  destruct (raw_config self) as [c|]; simpl in *; [|reflexivity].
  now rewrite Hcfg.
Qed.

Lemma X11_config_is_sibling_witness :
  str (Path (raw_checkpoint (cli "./runs//v1/model.pth" None None None)))
  = "runs/v1" ++ "/" ++ "model.pth" /\
  "runs/v1" <> "" /\
  endswith "runs/v1" "/" = false /\
  contains "model.pth" "/" = false /\
  truthy_opt (raw_config (cli "./runs//v1/model.pth" None None None))
  = false /\
  config_path (cli "./runs//v1/model.pth" None None None)
  = Path ("runs/v1" ++ "/args.yaml").
Proof.
  split; [reflexivity|]. split; [discriminate|]. split; [reflexivity|].
  split; [reflexivity|]. split; [reflexivity|].
  apply (X11_config_is_sibling
           (cli "./runs//v1/model.pth" None None None) "runs/v1" "model.pth");
    [reflexivity | discriminate | reflexivity | reflexivity | reflexivity].
Defined.

End DirnameFacts.

(* ================================================================= *)
(** ** [posixpath.join] *)

Module JoinFacts.
Import PyStr PyStrFacts StrFacts.

Lemma join_endswith (a b : string) :
  endswith (posixpath.join a b) b = true.
Proof.
  unfold posixpath.join.
  destruct (startswith b _); [apply endswith_refl|].
  destruct (negb (truthy a) || endswith a _).
  - apply endswith_app.
  - apply endswith_app_r. apply (endswith_app (String posixpath.sep "") b).
Qed.

Lemma join_absolute (a b : string) :
  startswith b "/" = true -> posixpath.join a b = b.
Proof. intro H. unfold posixpath.join, posixpath.sep. now rewrite H. Qed.

Lemma join_relative (a b : string) :
  a <> "" -> endswith a "/" = false -> startswith b "/" = false ->
  posixpath.join a b = a ++ "/" ++ b.
Proof.
  intros Ha He Hb. unfold posixpath.join, posixpath.sep.
  apply truthy_true in Ha. now rewrite Hb, Ha, He.
Qed.

End JoinFacts.

(* ================================================================= *)
(** ** The export routine: order of calls and failures *)

Section ExportProps.

Variables Cfg Model Manager StateDict Tensor : Type.
Variable load_cfg : string -> result Cfg.
Variable create_model : Cfg -> result Model.
Variable from_yaml : option string -> result Manager.
Variable manager_apply : Manager -> Model -> result Model.
Variable torch_load : string -> result StateDict.
Variable load_state_dict : Model -> StateDict -> result Model.
Variable randn : list Z -> result Tensor.
Variable export_onnx : Model -> Tensor -> string -> bool -> result unit.

Local Abbreviation export_ :=
  (export Cfg Model Manager StateDict Tensor load_cfg create_model from_yaml
          manager_apply torch_load load_state_dict randn export_onnx).

Ltac answers :=
  repeat match goal with
         | |- context [match ?o with Ok _ => _ | Raise _ => _ end] =>
             destruct o; cbn [fst snd app]
         end.

(** [export] only appends to the trace it is given. *)
Lemma export_extends (args : ExportArgs) (tr0 : list event) :
  export_ args tr0
  = ((tr0 ++ fst (run (export_ args)))%list, snd (run (export_ args))).
Proof.
  unfold export, run, bind, call. cbn [app].
  answers; rewrite <- ?app_assoc; reflexivity.
Qed.

(** The calls made are an initial part of the eight calls in source
    order. *)
Lemma export_prefix (args : ExportArgs) :
  exists rest, export_calls args = (fst (run (export_ args)) ++ rest)%list.
Proof.
  unfold export, run, bind, call, export_calls. cbn [app].
  answers; eexists; cbn [app]; reflexivity.
Qed.

(** Either all eight calls were made, or [export] raised before the
    exporter. *)
Lemma export_all_or_raise (args : ExportArgs) :
  fst (run (export_ args)) = export_calls args \/
  ((exists e, snd (run (export_ args)) = Raise e) /\
   exists rest, export_calls args
     = (fst (run (export_ args)) ++ rest
        ++ [ExportOnnx (batch_size args :: iter (image_shape args))
              (posixpath.join (save_dir args) (filename args))
              (negb (no_qat_conv args))])%list).
Proof.
  unfold export, run, bind, call, export_calls. cbn [app].
  answers;
    try (left; reflexivity);
    right; (split; [eexists; reflexivity|]); cbn [app];
    match goal with
    | |- exists rest, ?l = _ =>
        first [ exists (removelast (skipn 1 l)); reflexivity
              | exists (removelast (skipn 2 l)); reflexivity
              | exists (removelast (skipn 3 l)); reflexivity
              | exists (removelast (skipn 4 l)); reflexivity
              | exists (removelast (skipn 5 l)); reflexivity
              | exists (removelast (skipn 6 l)); reflexivity
              | exists (removelast (skipn 7 l)); reflexivity ]
    end.
Qed.

(** With every collaborator answering, the whole run. *)
Lemma export_all_answer
      (args : ExportArgs) (cfg : Cfg) (m m1 m2 : Model) (mgr : Manager)
      (sd : StateDict) (t : Tensor) :
  load_cfg (str (config args)) = Ok cfg ->
  create_model cfg = Ok m ->
  from_yaml (recipe args) = Ok mgr ->
  manager_apply mgr m = Ok m1 ->
  torch_load (str (checkpoint args)) = Ok sd ->
  load_state_dict m1 sd = Ok m2 ->
  randn (batch_size args :: iter (image_shape args)) = Ok t ->
  run (export_ args)
  = (export_calls args,
     export_onnx m2 t (posixpath.join (save_dir args) (filename args))
       (negb (no_qat_conv args))).
Proof.
  intros H1 H2 H3 H4 H5 H6 H7.
  unfold export, run, bind, call, export_calls. cbn [app].
  rewrite H1, H2, H3, H4, H5, H6, H7. reflexivity.
Qed.

End ExportProps.

Section ExportTheorems.

Variables Cfg Model Manager StateDict Tensor : Type.
Variable load_cfg : string -> result Cfg.
Variable create_model : Cfg -> result Model.
Variable from_yaml : option string -> result Manager.
Variable manager_apply : Manager -> Model -> result Model.
Variable torch_load : string -> result StateDict.
Variable load_state_dict : Model -> StateDict -> result Model.
Variable randn : list Z -> result Tensor.
Variable export_onnx : Model -> Tensor -> string -> bool -> result unit.

Local Abbreviation export_ :=
  (export Cfg Model Manager StateDict Tensor load_cfg create_model from_yaml
          manager_apply torch_load load_state_dict randn export_onnx).

Local Abbreviation prefix_ :=
  (export_prefix Cfg Model Manager StateDict Tensor load_cfg create_model
     from_yaml manager_apply torch_load load_state_dict randn export_onnx).

Local Abbreviation all_or_raise_ :=
  (export_all_or_raise Cfg Model Manager StateDict Tensor load_cfg
     create_model from_yaml manager_apply torch_load load_state_dict randn
     export_onnx).

(** X12.  When every collaborator answers, [export] makes its eight calls
    in source order and returns what the exporter returns; the weights are
    loaded into the model the recipe was applied to, and the exporter gets
    the model with the weights. *)
Theorem X12_export_all_answer
        (args : ExportArgs) (cfg : Cfg) (m m1 m2 : Model) (mgr : Manager)
        (sd : StateDict) (t : Tensor) :
  load_cfg (str (config args)) = Ok cfg ->
  create_model cfg = Ok m ->
  from_yaml (recipe args) = Ok mgr ->
  manager_apply mgr m = Ok m1 ->
  torch_load (str (checkpoint args)) = Ok sd ->
  load_state_dict m1 sd = Ok m2 ->
  randn (batch_size args :: iter (image_shape args)) = Ok t ->
  run (export_ args)
  = (export_calls args,
     export_onnx m2 t (posixpath.join (save_dir args) (filename args))
       (negb (no_qat_conv args))).
Proof. apply export_all_answer. Qed.

(** X13.  Whatever the collaborators answer, the calls [export] makes are
    an initial part of its eight calls in source order: none is skipped,
    repeated or reordered; and when [export] returns, all eight were
    made. *)
Theorem X13_export_order (args : ExportArgs) :
  (exists rest,
     export_calls args = (fst (run (export_ args)) ++ rest)%list) /\
  (forall u, snd (run (export_ args)) = Ok u ->
             fst (run (export_ args)) = export_calls args).
Proof.
  split; [apply prefix_|].
  intros u Hu.
  destruct (all_or_raise_ args) as [E|[[e He] _]]; [exact E|congruence].
Qed.

(** X14.  The exporter is called only after every other collaborator has
    answered: either all eight calls were made, or [export] raised and the
    exporter was not called at all. *)
Theorem X14_export_writes_last (args : ExportArgs) :
  fst (run (export_ args)) = export_calls args \/
  ((exists e, snd (run (export_ args)) = Raise e) /\
   forall shape path flag,
     ~ In (ExportOnnx shape path flag) (fst (run (export_ args)))).
Proof.
  destruct (all_or_raise_ args) as [E|[He [rest Hrest]]]; [now left|right].
  split; [exact He|].
  intros shape path flag Hin.
  unfold export_calls in Hrest.
  change [OpenYaml (str (config args)); CreateModel; FromYaml (recipe args);
          Apply; TorchLoad (str (checkpoint args)); LoadStateDict;
          Randn (batch_size args :: iter (image_shape args));
          ExportOnnx (batch_size args :: iter (image_shape args))
            (posixpath.join (save_dir args) (filename args))
            (negb (no_qat_conv args))]
    with ([OpenYaml (str (config args)); CreateModel; FromYaml (recipe args);
           Apply; TorchLoad (str (checkpoint args)); LoadStateDict;
           Randn (batch_size args :: iter (image_shape args))]
          ++ [ExportOnnx (batch_size args :: iter (image_shape args))
                (posixpath.join (save_dir args) (filename args))
                (negb (no_qat_conv args))])%list in Hrest.
  rewrite app_assoc in Hrest. apply app_inj_tail in Hrest.
  destruct Hrest as [Hrest _].
  assert (Hin' : In (ExportOnnx shape path flag)
                    (fst (run (export_ args)) ++ rest))
    by (apply in_or_app; now left).
  rewrite <- Hrest in Hin'. simpl in Hin'.
  repeat (destruct Hin' as [Hin'|Hin']; [discriminate|]). exact Hin'.
Qed.

(** X15.  Whenever the exporter is called, it is called with the sample
    shape [(batch_size, *image_shape)], with the path
    [os.path.join(save_dir, filename)], which ends with the filename and is
    the filename alone if that is absolute, and with [convert_qat] the
    negation of [no_qat_conv]. *)
Theorem X15_exporter_arguments (args : ExportArgs)
        (shape : list Z) (path : string) (flag : bool) :
  In (ExportOnnx shape path flag) (fst (run (export_ args))) ->
  shape = batch_size args :: iter (image_shape args) /\
  path = posixpath.join (save_dir args) (filename args) /\
  PyStr.endswith path (filename args) = true /\
  (PyStr.startswith (filename args) "/" = true -> path = filename args) /\
  flag = negb (no_qat_conv args).
Proof.
  intro Hin. destruct (prefix_ args) as [rest Hrest].
  assert (Hin' : In (ExportOnnx shape path flag) (export_calls args))
    by (rewrite Hrest; apply in_or_app; now left).
  unfold export_calls in Hin'. simpl in Hin'.
  repeat (destruct Hin' as [Hin'|Hin']; try discriminate).
  - injection Hin' as <- <- <-.
    split; [reflexivity|]. split; [reflexivity|].
    split; [apply JoinFacts.join_endswith|].
    split; [apply JoinFacts.join_absolute|reflexivity].
  - contradiction.
Qed.

(** X16.  An exception of the recipe loader leaves [export] as it is, and
    nothing is applied, loaded or exported after it. *)
Theorem X16_recipe_failure_propagates
        (args : ExportArgs) (cfg : Cfg) (m : Model) (e : exn) :
  load_cfg (str (config args)) = Ok cfg ->
  create_model cfg = Ok m ->
  from_yaml (recipe args) = Raise e ->
  run (export_ args)
  = ([OpenYaml (str (config args)); CreateModel; FromYaml (recipe args)],
     Raise e).
Proof.
  intros H1 H2 H3. unfold export, run, bind, call. cbn [app].
  rewrite H1, H2, H3. reflexivity.
Qed.

End ExportTheorems.

Lemma X12_export_all_answer_witness :
  run (export unit unit unit unit unit answers1 answers1 answers1 answers2
         answers1 answers2 answers1 answers4
         (resolved_in_ckpt_dir [3; 550; 550] "exported" "vit_base.onnx"))
  = ([OpenYaml "ckpt/args.yaml"; CreateModel; FromYaml None; Apply;
      TorchLoad "ckpt/model.pth.tar"; LoadStateDict;
      Randn [1; 3; 550; 550];
      ExportOnnx [1; 3; 550; 550] "exported/vit_base.onnx" true],
     Ok tt).
Proof.
  apply (X12_export_all_answer unit unit unit unit unit answers1 answers1
           answers1 answers2 answers1 answers2 answers1 answers4
           (resolved_in_ckpt_dir [3; 550; 550] "exported" "vit_base.onnx")
           tt tt tt tt tt tt tt);
    reflexivity.
Defined.

Lemma X15_exporter_arguments_witness :
  In (ExportOnnx [1; 3; 550; 550] "/tmp/vit.onnx" true)
     (fst (run (export unit unit unit unit unit answers1 answers1 answers1
                  answers2 answers1 answers2 answers1 answers4
                  (resolved_in_ckpt_dir [3; 550; 550] "exported"
                     "/tmp/vit.onnx")))) /\
  "/tmp/vit.onnx"
  = posixpath.join
      (save_dir (resolved_in_ckpt_dir [3; 550; 550] "exported"
                   "/tmp/vit.onnx"))
      (filename (resolved_in_ckpt_dir [3; 550; 550] "exported"
                   "/tmp/vit.onnx")).
Proof.
  split; [simpl; tauto|].
  refine (proj1 (proj2
           (X15_exporter_arguments unit unit unit unit unit answers1 answers1
              answers1 answers2 answers1 answers2 answers1 answers4
              (resolved_in_ckpt_dir [3; 550; 550] "exported" "/tmp/vit.onnx")
              [1; 3; 550; 550] "/tmp/vit.onnx" true _))).
  simpl. tauto.
Defined.

Lemma X16_recipe_failure_witness :
  needs_recipe
    (recipe (resolved_in_ckpt_dir [3; 550; 550] "onnx" "model.pth.onnx"))
  = Raise (OtherError "TypeError" "expected str, not NoneType") /\
  run (export unit unit unit unit unit answers1 answers1 needs_recipe
         answers2 answers1 answers2 answers1 answers4
         (resolved_in_ckpt_dir [3; 550; 550] "onnx" "model.pth.onnx"))
  = ([OpenYaml "ckpt/args.yaml"; CreateModel; FromYaml None],
     Raise (OtherError "TypeError" "expected str, not NoneType")).
Proof.
  split; [reflexivity|].
  apply (X16_recipe_failure_propagates unit unit unit unit unit answers1
           answers1 needs_recipe answers2 answers1 answers2 answers1 answers4
           (resolved_in_ckpt_dir [3; 550; 550] "onnx" "model.pth.onnx")
           tt tt (OtherError "TypeError" "expected str, not NoneType"));
    reflexivity.
Defined.

(* ================================================================= *)
(** ** The entry point: resolution, then export *)

Section MainTheorems.

Variable fs : FileSystem.
Variables Cfg Model Manager StateDict Tensor : Type.
Variable load_cfg : string -> result Cfg.
Variable create_model : Cfg -> result Model.
Variable from_yaml : option string -> result Manager.
Variable manager_apply : Manager -> Model -> result Model.
Variable torch_load : string -> result StateDict.
Variable load_state_dict : Model -> StateDict -> result Model.
Variable randn : list Z -> result Tensor.
Variable export_onnx : Model -> Tensor -> string -> bool -> result unit.

Local Abbreviation export_ :=
  (export Cfg Model Manager StateDict Tensor load_cfg create_model from_yaml
          manager_apply torch_load load_state_dict randn export_onnx).

Local Abbreviation main_ :=
  (main fs Cfg Model Manager StateDict Tensor load_cfg create_model from_yaml
        manager_apply torch_load load_state_dict randn export_onnx).

(** Resolution only probes. *)
Lemma post_init_only_probes (self : RawArgs) (ev : event) :
  In ev (fst (run (post_init fs self))) -> exists p, ev = Exists p.
Proof.
  unfold run, post_init, bind, exists_, call, lift, raise, ret.
  destruct (path_exists fs (Path (raw_checkpoint self))) as [[|]|e1]; simpl.
  - destruct (path_exists fs (config_path self)) as [[|]|e2]; simpl.
    + destruct (resolve_filename _ _); simpl;
        intros [<-|[<-|[]]]; eauto.
    + intros [<-|[<-|[]]]; eauto.
    + intros [<-|[<-|[]]]; eauto.
  - intros [<-|[]]; eauto.
  - intros [<-|[]]; eauto.
Qed.

(** [main] is resolution followed, if it returns, by [export] on what it
    returned. *)
Lemma main_unfold (ns : RawArgs) :
  run (main_ ns)
  = match run (post_init fs ns) with
    | (tr, Ok args) =>
        ((tr ++ fst (run (export_ args)))%list, snd (run (export_ args)))
    | (tr, Raise e) => (tr, Raise e)
    end.
Proof.
  unfold main, run at 1, bind. fold (run (post_init fs ns)).
  destruct (run (post_init fs ns)) as [tr [args|e]]; [|reflexivity].
  apply export_extends.
Qed.

(** X17.  When resolution fails, the script fails with the same exception
    and has called no collaborator: nothing was read, built, loaded or
    exported, the file system was only probed. *)
Theorem X17_main_fails_before_any_call
        (ns : RawArgs) (tr : list event) (e : exn) :
  run (post_init fs ns) = (tr, Raise e) ->
  run (main_ ns) = (tr, Raise e) /\
  forall ev, In ev tr -> exists p, ev = Exists p.
Proof.
  intro H. split.
  - rewrite main_unfold, H. reflexivity.
  - intros ev Hin. apply (post_init_only_probes ns).
    now rewrite H.
Qed.

(** X18.  End to end: when both files exist, a filename can be had and
    every collaborator answers, the script probes the checkpoint and the
    config, then reads that same config, builds the model, applies the
    recipe, loads that same checkpoint, and exports to
    [join(save_dir or "onnx", filename)]; it returns what the exporter
    returns. *)
Theorem X18_main_end_to_end
        (ns : RawArgs) (cfg : Cfg) (m m1 m2 : Model) (mgr : Manager)
        (sd : StateDict) (t : Tensor) :
  fs (str (Path (raw_checkpoint ns))) = true ->
  fs (str (config_path ns)) = true ->
  truthy_opt (raw_filename ns) = true
  \/ name (Path (raw_checkpoint ns)) <> "" ->
  load_cfg (str (config_path ns)) = Ok cfg ->
  create_model cfg = Ok m ->
  from_yaml (raw_recipe ns) = Ok mgr ->
  manager_apply mgr m = Ok m1 ->
  torch_load (str (Path (raw_checkpoint ns))) = Ok sd ->
  load_state_dict m1 sd = Ok m2 ->
  randn (raw_batch_size ns :: iter (raw_image_shape ns)) = Ok t ->
  exists fn,
    resolve_filename (Path (raw_checkpoint ns)) (raw_filename ns) = Ok fn /\
    run (main_ ns)
    = ([Exists (str (Path (raw_checkpoint ns)));
        Exists (str (config_path ns));
        OpenYaml (str (config_path ns));
        CreateModel;
        FromYaml (raw_recipe ns);
        Apply;
        TorchLoad (str (Path (raw_checkpoint ns)));
        LoadStateDict;
        Randn (raw_batch_size ns :: iter (raw_image_shape ns));
        ExportOnnx (raw_batch_size ns :: iter (raw_image_shape ns))
          (posixpath.join (or_else (raw_save_dir ns) "onnx") fn)
          (negb (raw_no_qat_conv ns))],
       export_onnx m2 t
         (posixpath.join (or_else (raw_save_dir ns) "onnx") fn)
         (negb (raw_no_qat_conv ns))).
Proof.
  intros F1 F2 F3 H1 H2 H3 H4 H5 H6 H7.
  destruct (ResolverFacts.post_init_returns fs ns F1 F2 F3) as [r Hr].
  destruct (ResolverFacts.post_init_inv fs ns _ r Hr)
    as (_ & _ & _ & Hc & Hg & Hrc & Hq & Hb & Hs & Hd & Hfn).
  exists (filename r). split; [exact Hfn|].
  rewrite main_unfold, Hr.
  assert (Hshape : iter (image_shape r) = iter (raw_image_shape ns))
    by (rewrite Hs; reflexivity).
  rewrite (export_all_answer Cfg Model Manager StateDict Tensor load_cfg
             create_model from_yaml manager_apply torch_load load_state_dict
             randn export_onnx r cfg m m1 m2 mgr sd t).
  - unfold export_calls. rewrite Hc, Hg, Hrc, Hq, Hb, Hd, Hshape.
    reflexivity.
  - now rewrite Hg.
  - exact H2.
  - now rewrite Hrc.
  - exact H4.
  - now rewrite Hc.
  - exact H6.
  - now rewrite Hb, Hshape.
Qed.

End MainTheorems.

Lemma X17_main_fails_witness :
  run (post_init no_files (cli "./ckpt/model.pth.tar" None None None))
  = ([Exists "ckpt/model.pth.tar"],
     Raise (FileNotFoundError
              "The checkpoint ckpt/model.pth.tar does not exist.")) /\
  run (main no_files unit unit unit unit unit answers1 answers1 answers1
         answers2 answers1 answers2 answers1 answers4
         (cli "./ckpt/model.pth.tar" None None None))
  = ([Exists "ckpt/model.pth.tar"],
     Raise (FileNotFoundError
              "The checkpoint ckpt/model.pth.tar does not exist.")).
Proof.
  split; [reflexivity|].
  refine (proj1
           (X17_main_fails_before_any_call no_files unit unit unit unit unit
              answers1 answers1 answers1 answers2 answers1 answers2 answers1
              answers4 (cli "./ckpt/model.pth.tar" None None None)
              [Exists "ckpt/model.pth.tar"]
              (FileNotFoundError
                 "The checkpoint ckpt/model.pth.tar does not exist.") _)).
  reflexivity.
Defined.

Lemma X18_main_end_to_end_witness :
  ckpt_dir (str (Path "./ckpt/model.pth.tar")) = true /\
  ckpt_dir
    (str (config_path
            (cli "./ckpt/model.pth.tar" None (Some "exported")
               (Some "vit_base")))) = true /\
  exists fn,
    resolve_filename (Path "./ckpt/model.pth.tar") (Some "vit_base") = Ok fn /\
    run (main ckpt_dir unit unit unit unit unit answers1 answers1 answers1
           answers2 answers1 answers2 answers1 answers4
           (cli "./ckpt/model.pth.tar" None (Some "exported")
              (Some "vit_base")))
    = ([Exists "ckpt/model.pth.tar"; Exists "ckpt/args.yaml";
        OpenYaml "ckpt/args.yaml"; CreateModel; FromYaml None; Apply;
        TorchLoad "ckpt/model.pth.tar"; LoadStateDict;
        Randn [1; 3; 550; 550];
        ExportOnnx [1; 3; 550; 550] (posixpath.join "exported" fn) true],
       Ok tt).
Proof.
  split; [reflexivity|]. split; [reflexivity|].
  apply (X18_main_end_to_end ckpt_dir unit unit unit unit unit answers1
           answers1 answers1 answers2 answers1 answers2 answers1 answers4
           (cli "./ckpt/model.pth.tar" None (Some "exported")
              (Some "vit_base"))
           tt tt tt tt tt tt tt);
    try reflexivity.
  left. reflexivity.
Defined.

(* ================================================================= *)
(** ** [pathlib]: the shape of a parsed path *)

Module PathShape.
Import PyStr PyStrFacts StrFacts.

Lemma split_no_sep (s : string) (c : ascii) :
  contains s c = false -> split s c = [s].
Proof.
  induction s as [|a s IH]; simpl; [reflexivity|].
  intro H. apply orb_false_iff in H. destruct H as [Ha Hs].
  now rewrite Ha, (IH Hs).
Qed.

Lemma split_app_sep (x rest : string) (c : ascii) :
  contains x c = false ->
  split (x ++ String c rest) c = x :: split rest c.
Proof.
  induction x as [|a x IH]; simpl.
  - intros _. now rewrite Ascii.eqb_refl.
  - intro H. apply orb_false_iff in H. destruct H as [Ha Hx].
    now rewrite Ha, (IH Hx).
Qed.

Lemma split_pieces (s : string) (c : ascii) :
  Forall (fun w => contains w c = false) (split s c).
Proof.
  induction s as [|a s IH]; simpl; [now constructor|].
  destruct (a =? c)%char eqn:Ha.
  - now constructor.
  - destruct (split s c) as [|w ws]; [now repeat constructor; simpl; rewrite Ha|].
    inversion IH as [|? ? Hw Hws]; subst.
    constructor; [simpl; now rewrite Ha, Hw|exact Hws].
Qed.

Lemma split_join (l : list string) :
  l <> [] ->
  Forall (fun w => contains w sep = false) l ->
  split (join (String sep "") l) sep = l.
Proof.
  induction l as [|x l IH]; [congruence|].
  intros _ H. inversion H as [|? ? Hx Hl]; subst.
  destruct l as [|y l].
  - simpl. now apply split_no_sep.
  - change (join (String sep "") (x :: y :: l))
      with (x ++ String sep (join (String sep "") (y :: l))).
    rewrite (split_app_sep x _ sep Hx). f_equal.
    apply IH; [discriminate|exact Hl].
Qed.

Lemma filter_components (l : list string) :
  Forall component l -> filter keep_part l = l.
Proof.
  induction 1 as [|x l [Hk Hs] Hl IH]; simpl; [reflexivity|].
  now rewrite Hk, IH.
Qed.

Lemma components_of_split (rel : string) :
  Forall component (filter keep_part (split rel sep)).
Proof.
  apply Forall_forall. intros w Hw. apply filter_In in Hw.
  destruct Hw as [Hin Hk]. split; [exact Hk|].
  pose proof (split_pieces rel sep) as H.
  rewrite Forall_forall in H. now apply H.
Qed.

(** The two ways [parse_parts] collects components agree. *)
Lemma parsed_components (rel : string) :
  (if contains rel sep then filter keep_part (split rel sep)
   else if keep_part rel then [rel] else [])
  = filter keep_part (split rel sep).
Proof.
  destruct (contains rel sep) eqn:C; [reflexivity|].
  rewrite (split_no_sep rel sep C). reflexivity.
Qed.

Lemma slice_first (a : ascii) (s : string) :
  slice (String a s) 0 1 = String a "".
Proof.
  unfold slice. pose proof (len_nonneg s).
  rewrite !bound_in_range by (rewrite len_cons; lia). reflexivity.
Qed.

(** [splitroot] gives no root, one slash or two, and no drive. *)
Lemma splitroot_shape (part : string) :
  exists root rel,
    splitroot part = ("", root, rel) /\
    (root = "" \/ root = "/" \/ root = "//").
Proof.
  unfold splitroot.
  destruct (truthy part && _).
  - destruct (len part - len (lstrip part sep) =? 2);
      do 2 eexists; (split; [reflexivity|]); auto.
  - do 2 eexists. split; [reflexivity|]. auto.
Qed.

(** Every parsed path is a root (none, [/] or [//]) and a list of
    components. *)
Lemma Path_shape (s : string) :
  exists root comps,
    Path s = mkPath "" root (if truthy root then root :: comps else comps) /\
    (root = "" \/ root = "/" \/ root = "//") /\
    Forall component comps.
Proof.
  unfold Path, parse_parts.
  destruct (truthy s) eqn:T; simpl (negb _); cbv iota.
  - destruct (splitroot_shape s) as (root & rel & -> & Hroot).
    rewrite parsed_components. simpl (truthy "" || _).
    exists root, (filter keep_part (split rel sep)).
    split; [now destruct (truthy root)|].
    split; [exact Hroot|apply components_of_split].
  - exists "", []. simpl. repeat split; auto.
Qed.

Lemma join_components_head (c : string) (cs : list string) :
  component c ->
  exists a rest, join (String sep "") (c :: cs) = String a rest
                 /\ (a =? sep)%char = false.
Proof.
  intros [Hk Hs]. destruct c as [|a c]; [discriminate|].
  simpl in Hs. apply orb_false_iff in Hs. destruct Hs as [Ha _].
  destruct cs; simpl; eauto.
Qed.

(** Parsing the components joined by slashes gives them back. *)
Lemma components_rejoined (comps : list string) :
  Forall component comps ->
  filter keep_part (split (join (String sep "") comps) sep) = comps.
Proof.
  intro H. destruct comps as [|c cs]; [reflexivity|].
  rewrite split_join; [now apply filter_components|discriminate|].
  eapply Forall_impl; [|exact H]. now intros w [_ Hw].
Qed.

Lemma lstrip_joined (comps : list string) :
  Forall component comps ->
  lstrip (join (String sep "") comps) sep = join (String sep "") comps.
Proof.
  intro H. destruct comps as [|c cs]; [reflexivity|].
  inversion H as [|? ? Hc _]; subst.
  destruct (join_components_head c cs Hc) as (a & rest & -> & Ha).
  simpl. now rewrite Ha.
Qed.

Lemma str_relative (comps : list string) :
  str (mkPath "" "" comps)
  = if truthy (join (String sep "") comps) then join (String sep "") comps
    else ".".
Proof. reflexivity. Qed.

Lemma str_rooted (root : string) (comps : list string) :
  truthy root = true ->
  str (mkPath "" root (root :: comps)) = root ++ join (String sep "") comps.
Proof.
  intro T. unfold str, format_parsed_parts. cbn [_drv _root _parts tl].
  rewrite T. simpl (truthy "" || true). cbv iota.
  simpl ("" ++ _).
  destruct root as [|a root]; [discriminate|]. reflexivity.
Qed.

Lemma Path_rooted (root j : string) (comps : list string) :
  root = "/" \/ root = "//" ->
  lstrip j sep = j ->
  filter keep_part (split j sep) = comps ->
  Path (root ++ j) = mkPath "" root (root :: comps).
Proof.
  intros Hroot Hls Hre.
  assert (R : splitroot (root ++ j) = ("", root, j)).
  { unfold splitroot. destruct Hroot as [-> | ->].
    - simpl ("/" ++ j). change (truthy (String "/" j)) with true.
      rewrite slice_first. simpl (true && _). cbv iota.
      change (lstrip (String "/" j) sep) with (lstrip j sep).
      rewrite Hls, len_cons.
      destruct (Z.eqb_spec (len j + 1 - len j) 2); [lia|reflexivity].
    - simpl ("//" ++ j).
      change (truthy (String "/" (String "/" j))) with true.
      rewrite slice_first. simpl (true && _). cbv iota.
      change (lstrip (String "/" (String "/" j)) sep) with (lstrip j sep).
      rewrite Hls, !len_cons.
      destruct (Z.eqb_spec (len j + 1 + 1 - len j) 2); [reflexivity|lia]. }
  unfold Path, parse_parts.
  assert (T : truthy (root ++ j) = true)
    by (destruct Hroot as [-> | ->]; reflexivity).
  rewrite T. simpl (negb true). cbv iota.
  rewrite R, parsed_components, Hre.
  destruct Hroot as [-> | ->]; reflexivity.
Qed.

Lemma Path_relative (j : string) (comps : list string) (a : ascii)
      (rest : string) :
  j = String a rest ->
  (a =? sep)%char = false ->
  filter keep_part (split j sep) = comps ->
  Path j = mkPath "" "" comps.
Proof.
  intros Hj Ha Hre.
  assert (T : truthy j = true) by (rewrite Hj; reflexivity).
  assert (R : splitroot j = ("", "", j)).
  { unfold splitroot. rewrite T. rewrite Hj at 1. rewrite slice_first.
    simpl. now rewrite Ha. }
  unfold Path, parse_parts. rewrite T. simpl (negb true). cbv iota.
  rewrite R, parsed_components, Hre. reflexivity.
Qed.

(** A parsed path is parsed from its own string to itself. *)
Lemma Path_of_shape (root : string) (comps : list string) :
  root = "" \/ root = "/" \/ root = "//" ->
  Forall component comps ->
  Path (str (mkPath "" root
               (if truthy root then root :: comps else comps)))
  = mkPath "" root (if truthy root then root :: comps else comps).
Proof.
  intros Hroot Hc.
  pose proof (components_rejoined comps Hc) as Hre.
  pose proof (lstrip_joined comps Hc) as Hls.
  destruct Hroot as [-> | Hroot].
  - change (truthy "") with false. cbv iota. rewrite str_relative.
    destruct comps as [|c cs]; [reflexivity|].
    inversion Hc as [|? ? Hc1 Hcs]; subst.
    destruct (join_components_head c cs Hc1) as (a & rest & Hj & Ha).
    assert (T : truthy (join (String sep "") (c :: cs)) = true)
      by (rewrite Hj; reflexivity).
    rewrite T. now apply (Path_relative _ _ a rest).
  - assert (T : truthy root = true)
      by (destruct Hroot as [-> | ->]; reflexivity).
    rewrite T, (str_rooted root comps T).
    now apply Path_rooted.
Qed.

(** Normalisation is idempotent. *)
Lemma Path_str_Path (s : string) : Path (str (Path s)) = Path s.
Proof.
  destruct (Path_shape s) as (root & comps & -> & Hroot & Hc).
  now apply Path_of_shape.
Qed.

End PathShape.

(* ================================================================= *)
(** ** The resolver and the shape of paths *)

Module PathProps.
Import PyStr PyStrFacts StrFacts PathFacts ResolverFacts PathShape.

Lemma name_of_shape (root : string) (comps : list string) :
  name (mkPath "" root (if truthy root then root :: comps else comps))
  = last comps "".
Proof.
  unfold name. cbn [_drv _root _parts]. simpl (truthy "" || _).
  destruct (truthy root).
  - destruct comps as [|c cs]; reflexivity.
  - destruct comps as [|c cs]; reflexivity.
Qed.

(** The final component of a parsed path has no slash. *)
Lemma name_plain (s : string) : contains (name (Path s)) sep = false.
Proof.
  destruct (Path_shape s) as (root & comps & -> & _ & Hc).
  rewrite name_of_shape.
  destruct comps as [|c cs]; [reflexivity|].
  assert (Hin : In (last (c :: cs) "") (c :: cs)).
  { clear. revert c. induction cs as [|d cs IH]; intro c; [now left|].
    right. apply (IH d). }
  rewrite Forall_forall in Hc. now destruct (Hc _ Hin).
Qed.

Lemma contains_take (n : nat) (s : string) (c : ascii) :
  contains s c = false -> contains (take n s) c = false.
Proof.
  revert s. induction n as [|n IH]; intros [|a s]; simpl; try reflexivity.
  intro H. apply orb_false_iff in H. destruct H as [Ha Hs].
  now rewrite Ha, (IH s Hs).
Qed.

Lemma stem_plain (p : PurePath) (c : ascii) :
  contains (name p) c = false -> contains (stem p) c = false.
Proof.
  intro H. unfold stem.
  destruct ((0 <? rfind (name p) ".") && _); [|exact H].
  now apply contains_take.
Qed.

Lemma endswith_snoc_inv (s : string) (c : ascii) :
  endswith s (String c "") = true -> exists s', s = s' ++ String c "".
Proof.
  induction s as [|a s IH]; [discriminate|].
  cbn [endswith]. intro H. apply orb_true_iff in H. destruct H as [H|H].
  - apply String.eqb_eq in H. exists "". exact H.
  - destruct (IH H) as [s' ->]. now exists (String a s').
Qed.

Lemma startswith_contains (b : string) (c : ascii) :
  startswith b (String c "") = true -> contains b c = true.
Proof.
  destruct b as [|a b]; [discriminate|]. simpl.
  destruct (a =? c)%char; [reflexivity|discriminate].
Qed.

(** The final component of [x ++ b] is [b] when [x] is empty or ends with
    a slash and [b] has none. *)
Lemma basename_app (x b : string) :
  contains b posixpath.sep = false ->
  x = "" \/ endswith x "/" = true ->
  posixpath.basename (x ++ b) = b.
Proof.
  intros Hb Hx. unfold posixpath.basename, slice_from.
  pose proof Hb as Hr. apply rfind_absent in Hr.
  pose proof (len_nonneg x). pose proof (len_nonneg b).
  assert (E : rfind (x ++ b) posixpath.sep + 1 = len x).
  { rewrite rfind_app, Hr. simpl (0 <=? -1). cbv iota.
    destruct Hx as [-> | Hx]; [reflexivity|].
    destruct (endswith_snoc_inv x "/" Hx) as [x' ->].
    rewrite rfind_app, len_app. simpl. change (len "/") with 1. lia. }
  rewrite E. rewrite bound_in_range by (rewrite len_app; lia).
  replace (Z.to_nat (len x)) with (String.length x) by (unfold len; lia).
  apply drop_app.
Qed.

Lemma basename_join (a b : string) :
  contains b posixpath.sep = false ->
  posixpath.basename (posixpath.join a b) = b.
Proof.
  intro Hb. unfold posixpath.join.
  destruct (startswith b (String posixpath.sep "")) eqn:S.
  - apply startswith_contains in S. congruence.
  - destruct (negb (truthy a) || endswith a (String posixpath.sep "")) eqn:C.
    + apply basename_app; [exact Hb|].
      apply orb_true_iff in C. destruct C as [C|C]; [left|now right].
      apply negb_true_iff in C. now apply truthy_false.
    + replace (a ++ String posixpath.sep "" ++ b)
        with ((a ++ String posixpath.sep "") ++ b)
        by (rewrite app_assoc; reflexivity).
      apply basename_app; [exact Hb|right].
      apply (endswith_app a (String posixpath.sep "")).
Qed.

(** X19.  Paths are normalised once and for all: parsing the string of a
    parsed path gives the same path, so resolution of the normalised
    checkpoint is resolution of the checkpoint as given. *)
Theorem X19_normalised_checkpoint (fs : FileSystem) (self : RawArgs) :
  Path (str (Path (raw_checkpoint self))) = Path (raw_checkpoint self) /\
  run (post_init fs
         (with_checkpoint self (str (Path (raw_checkpoint self)))))
  = run (post_init fs self).
Proof.
  pose proof (Path_str_Path (raw_checkpoint self)) as E.
  split; [exact E|].
  unfold run, post_init, config_path.
  cbn [with_checkpoint raw_checkpoint raw_config raw_recipe raw_no_qat_conv
       raw_batch_size raw_image_shape raw_save_dir raw_filename].
  now rewrite E.
Qed.

(** X20.  A derived filename is a plain name: when no filename is supplied
    and resolution returns, the resolved filename has no slash, and it is
    the final component of the path [export] writes, which therefore lies
    directly in the output directory. *)
Theorem X20_derived_filename_plain (fs : FileSystem) (self : RawArgs)
        (tr : list event) (r : ExportArgs) :
  truthy_opt (raw_filename self) = false ->
  run (post_init fs self) = (tr, Ok r) ->
  contains (filename r) "/" = false /\
  posixpath.basename (posixpath.join (save_dir r) (filename r))
  = filename r.
Proof.
  intros T Hrun.
  destruct (post_init_inv fs self tr r Hrun)
    as (_ & _ & _ & _ & _ & _ & _ & _ & _ & _ & Hfn).
  destruct (resolve_filename_absent _ _ _ T Hfn) as [_ E].
  assert (P : contains (filename r) posixpath.sep = false).
  { rewrite E, contains_app.
    pose proof (stem_plain _ _ (name_plain (raw_checkpoint self))) as S.
    unfold sep in S. rewrite S. reflexivity. }
  split; [exact P|]. now apply basename_join.
Qed.

Lemma X20_derived_filename_plain_witness :
  truthy_opt (raw_filename (cli "./ckpt/model.pth.tar" None None None))
  = false /\
  run (post_init ckpt_dir (cli "./ckpt/model.pth.tar" None None None))
  = (probes_in_ckpt_dir,
     Ok (resolved_in_ckpt_dir [3; 550; 550] "onnx" "model.pth.onnx")) /\
  posixpath.basename
    (posixpath.join
       (save_dir (resolved_in_ckpt_dir [3; 550; 550] "onnx" "model.pth.onnx"))
       (filename (resolved_in_ckpt_dir [3; 550; 550] "onnx" "model.pth.onnx")))
  = filename (resolved_in_ckpt_dir [3; 550; 550] "onnx" "model.pth.onnx").
Proof.
  split; [reflexivity|]. split; [reflexivity|].
  refine (proj2
           (X20_derived_filename_plain ckpt_dir
              (cli "./ckpt/model.pth.tar" None None None)
              probes_in_ckpt_dir
              (resolved_in_ckpt_dir [3; 550; 550] "onnx" "model.pth.onnx")
              _ _)); reflexivity.
Defined.

End PathProps.

(** X3.  Nothing checks how many numbers [image_shape] holds: whatever
    arguments resolve, they resolve with the same probes for any other
    iterable of integers, of any length; the resolved [image_shape] is the
    tuple of its items in order and the seven other fields are the same. *)
Theorem X3_image_shape_any_length
        (fs : FileSystem) (self : RawArgs)
        (tr : list event) (r : ExportArgs) (it : iterable) :
  run (post_init fs self) = (tr, Ok r) ->
  exists r',
    run (post_init fs (with_image_shape self it)) = (tr, Ok r') /\
    image_shape r' = PyTuple (iter it) /\
    checkpoint r' = checkpoint r /\ config r' = config r /\
    recipe r' = recipe r /\ no_qat_conv r' = no_qat_conv r /\
    batch_size r' = batch_size r /\
    save_dir r' = save_dir r /\ filename r' = filename r.
Proof.
  intro Hrun.
  destruct (ResolverFacts.post_init_inv fs self tr r Hrun)
    as (H1 & H2 & -> & Hc & Hg & Hrc & Hq & Hb & _ & Hd & Hfn).
  unfold run, post_init, bind, exists_, call, lift, raise, ret.
  change (raw_checkpoint (with_image_shape self it)) with (raw_checkpoint self).
  change (config_path (with_image_shape self it)) with (config_path self).
  change (raw_filename (with_image_shape self it)) with (raw_filename self).
  rewrite (proj2 (ResolverFacts.path_exists_found _ _) H1). simpl.
  rewrite (proj2 (ResolverFacts.path_exists_found _ _) H2). simpl.
  rewrite Hfn.
  eexists. split; [reflexivity|]. simpl. rewrite Hc, Hg, Hrc, Hq, Hb, Hd.
  repeat split.
  destruct (raw_save_dir self) as [d|]; simpl; [|reflexivity].
  now destruct (truthy d).
Qed.

Lemma X3_image_shape_any_length_witness :
  run (post_init ckpt_dir (cli "./ckpt/model.pth.tar" None None None))
  = (probes_in_ckpt_dir,
     Ok (resolved_in_ckpt_dir [3; 550; 550] "onnx" "model.pth.onnx")) /\
  exists r',
    run (post_init ckpt_dir
           (with_image_shape (cli "./ckpt/model.pth.tar" None None None)
              (PyList [224; 224])))
    = (probes_in_ckpt_dir, Ok r') /\
    image_shape r' = PyTuple [224; 224].
Proof.
  split; [reflexivity|].
  destruct (X3_image_shape_any_length ckpt_dir
              (cli "./ckpt/model.pth.tar" None None None)
              probes_in_ckpt_dir
              (resolved_in_ckpt_dir [3; 550; 550] "onnx" "model.pth.onnx")
              (PyList [224; 224]) eq_refl)
    as (r' & Hr & Hs & _).
  exists r'. auto.
Defined.
